(** * SC Market image lambda: format classification, conversion,
      moderation scan and upload, embedded from the TypeScript sources.

    Sources embedded here:
    - [utils/image_processor.ts]  (class [ImageProcessor]),
    - [clients/rekognition.ts]    (class [RekognitionClient]; the repository
      holds two revisions of it, both embedded, see [Variant]),
    - [index.ts]                  ([handler], [scanImageForModeration],
      [uploadImageToBackblaze]).

    JavaScript strings are modelled as [string] (sequences of 8-bit
    characters); [toLowerCase] acts on the letters A-Z.  Numbers that the
    code compares or counts are [Z]; Rekognition confidences are [Q]
    (finite, non-NaN values).  Of a log line the level and the message are
    kept; bucket names, which are read from the configuration and never
    computed, are left out of the recorded calls. *)

From Stdlib Require Import String Ascii List ZArith QArith Bool Lia DecimalString.
From stdpp Require Import base strings gmap.

Import ListNotations.
Local Open Scope string_scope.
Local Open Scope Z_scope.

(** ** JavaScript string and array primitives used by the sources *)

Module Js.

Definition lower_char (c : ascii) : ascii :=
  let n := nat_of_ascii c in
  if (65 <=? n)%nat && (n <=? 90)%nat then ascii_of_nat (n + 32) else c.

(** [s.toLowerCase()] *)
Fixpoint toLowerCase (s : string) : string :=
  match s with
  | EmptyString => EmptyString
  | String c t => String (lower_char c) (toLowerCase t)
  end.

(** [s.startsWith(p)] *)
Fixpoint startsWith (s p : string) : bool :=
  match p, s with
  | EmptyString, _ => true
  | String _ _, EmptyString => false
  | String a p', String b s' => Ascii.eqb a b && startsWith s' p'
  end.

(** [s.includes(needle)] *)
Fixpoint includes (s needle : string) : bool :=
  startsWith s needle ||
  match s with
  | EmptyString => false
  | String _ t => includes t needle
  end.

Fixpoint drop (n : nat) (s : string) : string :=
  match n, s with
  | O, _ => s
  | S _, EmptyString => EmptyString
  | S n', String _ t => drop n' t
  end.

(** [s.replace(pat, rep)] with a string pattern: only the first
    occurrence is replaced. *)
Fixpoint replace (s pat rep : string) : string :=
  if startsWith s pat then String.append rep (drop (String.length pat) s)
  else match s with
       | EmptyString => EmptyString
       | String c t => String c (replace t pat rep)
       end.

(** [s.endsWith(p)] *)
Fixpoint endsWith (s p : string) : bool :=
  String.eqb s p ||
  match s with
  | EmptyString => false
  | String _ t => endsWith t p
  end.

(** The character class [[^/.]]. *)
Definition not_slash_or_dot (c : ascii) : bool :=
  negb (Ascii.eqb c "/") && negb (Ascii.eqb c ".").

Fixpoint all_chars (p : ascii -> bool) (s : string) : bool :=
  match s with
  | EmptyString => true
  | String c t => p c && all_chars p t
  end.

(** Does the regular expression [/\.[^/.]+$/] match [s] from its first
    character on? *)
Definition matches_extension_here (s : string) : bool :=
  match s with
  | String dot (String c t) =>
      Ascii.eqb dot "." && all_chars not_slash_or_dot (String c t)
  | _ => false
  end.

(** [s.replace(/\.[^/.]+$/, rep)]: the leftmost match is replaced, and
    since the match runs to the end of the input nothing follows it. *)
Fixpoint replace_extension (s rep : string) : string :=
  if matches_extension_here s then rep
  else match s with
       | EmptyString => EmptyString
       | String c t => String c (replace_extension t rep)
       end.

(** [arr.includes(x)] on an array of strings. *)
Definition array_includes (arr : list string) (x : string) : bool :=
  existsb (String.eqb x) arr.

(** [!s] for an optional string field: [undefined] and [''] are falsy. *)
Definition falsy (s : option string) : bool :=
  match s with
  | None => true
  | Some v => String.eqb v ""
  end.

(** [s || d] for an optional string. *)
Definition or_default (s : option string) (d : string) : string :=
  match s with
  | None => d
  | Some v => if String.eqb v "" then d else v
  end.

(** Decimal rendering of an integer inside a template literal. *)
Definition show_Z (z : Z) : string := NilZero.string_of_int (Z.to_int z).

(** The names every object literal answers through its prototype:
    [Object.getOwnPropertyNames(Object.prototype)]. *)
Definition Object_prototype_names : list string :=
  ["constructor"; "__defineGetter__"; "__defineSetter__"; "hasOwnProperty";
   "__lookupGetter__"; "__lookupSetter__"; "isPrototypeOf";
   "propertyIsEnumerable"; "toString"; "valueOf"; "__proto__";
   "toLocaleString"].

End Js.

Arguments Js.includes : simpl never.
Arguments Js.replace : simpl never.
Arguments Js.toLowerCase : simpl never.

(** ** Values exchanged with the outside world *)

(** A Node [Buffer]: an object with an identity and its bytes.  Two
    buffers are "the same buffer" when they are the same object. *)
Record Buffer := mkBuffer {
  buf_id : nat;
  buf_bytes : list Byte.byte
}.

(** [buffer.length] *)
Definition buf_length (b : Buffer) : Z := Z.of_nat (List.length (buf_bytes b)).

(** What a [catch] clause can receive. *)
Inductive Thrown :=
| JsError (name message : string)
    (** an [Error] that is not an [ImageProcessorError] *)
| ImageProcessorError (statusCode : Z) (errorType message : string)
    (** [class ImageProcessorError extends Error] *)
| NonError (rendering : string).
    (** any other thrown value, with its [String(value)] *)

(** [error instanceof Error ? error.message : ...] *)
Definition error_message (t : Thrown) : option string :=
  match t with
  | JsError _ m => Some m
  | ImageProcessorError _ _ m => Some m
  | NonError _ => None
  end.

(** [`${error}`]: for an [Error] this is [Error.prototype.toString], which
    gives the message alone when the name is empty, the name alone when
    the message is empty, and [name: message] otherwise. *)
Definition render_thrown (t : Thrown) : string :=
  let render name m :=
    if String.eqb name "" then m
    else if String.eqb m "" then name
    else String.append name (String.append ": " m) in
  match t with
  | JsError name m => render name m
  | ImageProcessorError _ _ m => render "ImageProcessorError" m
  | NonError r => r
  end.

Record SharpOptions := {
  failOnError : bool;
  limitInputPixels : Z;
  sequentialRead : bool
}.

Record PngOptions := {
  compressionLevel : option Z;
  adaptiveFiltering : option bool
}.

Record WebpOptions := {
  quality : option Z;
  effort : option Z
}.

(** The part of [sharp.Metadata] that the code reads. *)
Record Metadata := {
  width : option Z;
  height : option Z
}.

(** A [sharp.Sharp] pipeline: the input it was built over and its options. *)
Record Sharp := {
  sharp_input : Buffer;
  sharp_options : SharpOptions
}.

(** An entry of [ModerationLabels] or of [Labels] in a Rekognition reply. *)
Record Label := {
  Name : option string;
  Confidence : option Q
}.

Inductive LogLevel := Debug | Info | Warn | Error.

(** Every call that leaves the process, recorded when it is made
    (whether or not it then fails), and every log line. *)
Inductive Event :=
| EvLog (level : LogLevel) (message : string)
| EvSharpMetadata (input : Buffer) (options : SharpOptions)
| EvSharpPng (input : Buffer) (options : SharpOptions) (png : PngOptions)
| EvSharpWebp (input : Buffer) (options : SharpOptions) (webp : WebpOptions)
| EvS3PutObject (key : string) (body : Buffer) (contentType : string)
| EvS3DeleteObject (key : string)
| EvDetectModerationLabels (key : string) (minConfidence : Z)
| EvDetectLabels (key : string) (maxLabels minConfidence : Z)
| EvB2PutObject (key : string) (body : Buffer) (contentType : string).

(** The state threaded through a request: the calls made so far, newest
    first, and the identity the next allocated buffer will get. *)
Record World := mkWorld {
  trace : list Event;
  next_buffer : nat
}.

(** The collaborators.  Each answer may depend on everything that happened
    before the call, so any sequence of successes and failures is some
    [Env]. *)
Record Env := {
  CDN_URL : option string;
  base64_decode : string -> list Byte.byte;
  toFixed2_MB : Z -> string;
    (** [(n / (1024 * 1024)).toFixed(2)] *)
  uuidv4 : World -> string;
  date_now : World -> Z;
  sharp_metadata : World -> Buffer -> SharpOptions -> Thrown + Metadata;
  sharp_png : World -> Buffer -> SharpOptions -> PngOptions -> Thrown + list Byte.byte;
  sharp_webp : World -> Buffer -> SharpOptions -> WebpOptions -> Thrown + list Byte.byte;
  s3_putObject : World -> string -> Buffer -> string -> Thrown + unit;
  s3_deleteObject : World -> string -> Thrown + unit;
  rekognition_detectModerationLabels :
    World -> string -> Z -> Thrown + option (list Label);
  rekognition_detectLabels :
    World -> string -> Z -> Z -> Thrown + option (list Label);
  b2_putObject : World -> string -> Buffer -> string -> Thrown + unit
}.

(** ** The monad of a request: state passing with exceptions *)

Inductive Outcome (A : Type) :=
| Returned (a : A)
| Threw (t : Thrown).
Arguments Returned {A} a.
Arguments Threw {A} t.

Definition M (A : Type) : Type := World -> Outcome A * World.

Definition ret {A} (a : A) : M A := fun w => (Returned a, w).

Definition throw {A} (t : Thrown) : M A := fun w => (Threw t, w).

Definition bind {A B} (m : M A) (k : A -> M B) : M B :=
  fun w =>
    match m w with
    | (Returned a, w') => k a w'
    | (Threw t, w') => (Threw t, w')
    end.

(** [try { m } catch (error) { h error }] *)
Definition try_catch {A} (m : M A) (h : Thrown -> M A) : M A :=
  fun w =>
    match m w with
    | (Returned a, w') => (Returned a, w')
    | (Threw t, w') => h t w'
    end.

Definition record (e : Event) (w : World) : World :=
  {| trace := e :: trace w; next_buffer := next_buffer w |}.

(** An awaited call to a collaborator. *)
Definition call {R} (e : Event) (answer : World -> Thrown + R) : M R :=
  fun w =>
    match answer w with
    | inl t => (Threw t, record e w)
    | inr r => (Returned r, record e w)
    end.

(** Reading something from the surroundings without a call worth recording. *)
Definition ask {R} (f : World -> R) : M R := fun w => (Returned (f w), w).

(** A fresh [Buffer] holding [bytes]. *)
Definition new_buffer (bytes : list Byte.byte) : M Buffer :=
  fun w =>
    (Returned {| buf_id := next_buffer w; buf_bytes := bytes |},
     {| trace := trace w; next_buffer := S (next_buffer w) |}).

(** [logger.<level>(message, meta)]; the logger does not throw. *)
Definition log (level : LogLevel) (message : string) : M unit :=
  fun w => (Returned tt, record (EvLog level message) w).

Declare Scope js_scope.
Delimit Scope js_scope with js.
Notation "x <- m ;; k" := (bind m (fun x => k))
  (at level 100, m at next level, right associativity) : js_scope.
Notation "m ;;; k" := (bind m (fun _ => k))
  (at level 100, right associativity) : js_scope.
Local Open Scope js_scope.

(** ** [utils/image_processor.ts] *)

Module ImageProcessor.

Definition SUPPORTED_FORMATS : list string := ["webp"; "jpg"; "jpeg"; "png"].
Definition REKOGNITION_COMPATIBLE_FORMATS : list string := ["jpeg"; "png"].
Definition MAX_INPUT_PIXELS : Z := 67108864.
Definition MAX_PROCESSING_SIZE : Z := 5 * 1024 * 1024.
Definition MAX_IMAGE_DIMENSION : Z := 8192.

Definition extractFormatFromContentType (contentType : string) : string :=
  Js.replace (Js.toLowerCase contentType) "image/" "".

Definition isSupportedFormat (contentType : string) : bool :=
  Js.array_includes SUPPORTED_FORMATS (extractFormatFromContentType contentType).

(** The own keys of the object literal [formatMap].  The literal also
    inherits the members of [Object.prototype]: for one of
    [Js.Object_prototype_names] the lookup in the source finds that
    member, which is not a string, and [getMimeType] returns it.  The
    callers pass jpeg, png or webp only, and what is proved of
    [getMimeType] below leaves the inherited names out. *)
Definition formatMap : gmap string string :=
  <["webp" := "image/webp"]>
    (<["jpg" := "image/jpeg"]>
      (<["jpeg" := "image/jpeg"]>
        (<["png" := "image/png"]> ∅))).

Definition getMimeType (format : string) : string :=
  Js.or_default (formatMap !! format) "image/jpeg".

(** What the three functions that convert return. *)
Record Conversion := {
  buffer : Buffer;
  format : string;
  converted : bool
}.

(** A number read as a condition: [undefined] and [0] are falsy. *)
Definition truthy (n : option Z) : bool :=
  match n with
  | Some z => negb (z =? 0)
  | None => false
  end.

Definition exceeds (n : option Z) (limit : Z) : bool :=
  match n with
  | Some z => z >? limit
  | None => false
  end.

Definition show_dim (n : option Z) : string :=
  match n with
  | Some z => Js.show_Z z
  | None => "undefined"
  end.

Definition dimensions_message (m : Metadata) : string :=
  String.append "Image dimensions ("
    (String.append (show_dim (width m))
      (String.append "x"
        (String.append (show_dim (height m))
          ") exceed maximum allowed (8192x8192). Please reduce image dimensions."))).

Section WithEnv.

Variable env : Env.

Definition enhancedOptions : SharpOptions :=
  {| failOnError := false;
     limitInputPixels := MAX_INPUT_PIXELS;
     sequentialRead := true |}.

(** The [catch] clause of [instantiateSharpImage]. *)
Definition instantiateSharpImage_catch (error : Thrown) : M Sharp :=
  let fallthrough : M Sharp :=
    (log Error "Image instantiation failed" ;;;
     throw (ImageProcessorError 400 "InstantiationError"
       "Input image could not be instantiated. Please choose a valid image.")) in
  match error_message error with
  | Some m =>
      if Js.includes m "memory" ||
         (Js.includes m "buffer" &&
          negb (Js.includes m "unsupported image format") &&
          negb (Js.includes m "Input buffer contains unsupported image format"))
      then
        (log Error "Memory limit exceeded during image processing" ;;;
         throw (ImageProcessorError 413 "MemoryLimitExceeded"
           "Image is too large to process in 24MB Lambda environment. Please reduce image size and try again."))
      else if Js.includes m "pixel" || Js.includes m "dimension"
      then
        (log Error "Image dimensions too large for processing" ;;;
         throw (ImageProcessorError 413 "ImageTooLarge"
           "Image dimensions are too large for 24MB Lambda environment. Please reduce image dimensions and try again."))
      else if Js.includes m "unsupported image format" ||
              Js.includes m "Input buffer contains unsupported image format"
      then
        (log Debug "Invalid image format provided" ;;;
         throw (ImageProcessorError 400 "InvalidImageFormat"
           "The provided data is not a valid image format. Please ensure you are uploading a valid image file."))
      else fallthrough
  | None => fallthrough
  end.

(** [instantiateSharpImage(imageBuffer)]; both callers leave [options]
    at its default [{}].  [sharp(buffer, options)] only builds a pipeline
    over the buffer: the one awaited read is [metadata()]. *)
Definition instantiateSharpImage (imageBuffer : Buffer) : M Sharp :=
  try_catch
    (metadata <- call (EvSharpMetadata imageBuffer enhancedOptions)
                   (fun w => sharp_metadata env w imageBuffer enhancedOptions) ;;
     (if truthy (width metadata) && truthy (height metadata) then
        if exceeds (width metadata) MAX_IMAGE_DIMENSION ||
           exceeds (height metadata) MAX_IMAGE_DIMENSION
        then
          (log Debug "Image dimensions exceed limits" ;;;
           throw (ImageProcessorError 413 "ImageTooLarge"
                    (dimensions_message metadata)))
        else ret tt
      else ret tt) ;;;
     ret {| sharp_input := imageBuffer; sharp_options := enhancedOptions |})
    instantiateSharpImage_catch.

Definition convertToPNG (imageBuffer : Buffer) : M Buffer :=
  try_catch
    (sharpInstance <- instantiateSharpImage imageBuffer ;;
     let png := {| compressionLevel := Some 6; adaptiveFiltering := Some true |} in
     bytes <- call (EvSharpPng (sharp_input sharpInstance)
                      (sharp_options sharpInstance) png)
                (fun w => sharp_png env w (sharp_input sharpInstance)
                            (sharp_options sharpInstance) png) ;;
     new_buffer bytes)
    (fun error =>
       log Error "PNG conversion failed" ;;;
       throw (ImageProcessorError 500 "PNGConversionError"
                "Failed to convert image to PNG format.")).

(** The [catch] clause shared, word for word, by [convertToWebP] and
    [convertToWebPIfNeeded]. *)
Definition webp_catch {A} (error : Thrown) : M A :=
  let fallthrough : M A :=
    (log Error "WebP conversion failed" ;;;
     throw (ImageProcessorError 500 "WebPConversionError"
              "Failed to convert image to WebP format.")) in
  match error with
  | ImageProcessorError _ _ _ => throw error
  | JsError _ m =>
      if Js.includes m "memory" || Js.includes m "buffer" then
        (log Error "Memory limit exceeded during WebP conversion" ;;;
         throw (ImageProcessorError 413 "MemoryLimitExceeded"
           "Image is too large to convert to WebP in 24MB Lambda environment. Please reduce image size and try again."))
      else if Js.includes m "timeout" || Js.includes m "timed out" then
        (log Error "WebP conversion timed out" ;;;
         throw (ImageProcessorError 408 "ProcessingTimeout"
           "Image conversion timed out. Please try with a smaller image."))
      else fallthrough
  | NonError _ => fallthrough
  end.

Definition convertToWebP (imageBuffer : Buffer) : M Buffer :=
  try_catch
    (sharpInstance <- instantiateSharpImage imageBuffer ;;
     let webp := {| quality := Some 80; effort := None |} in
     bytes <- call (EvSharpWebp (sharp_input sharpInstance)
                      (sharp_options sharpInstance) webp)
                (fun w => sharp_webp env w (sharp_input sharpInstance)
                            (sharp_options sharpInstance) webp) ;;
     new_buffer bytes)
    webp_catch.

Definition convertToRekognitionCompatible
    (imageBuffer : Buffer) (contentType : string) : M Conversion :=
  let originalFormat := extractFormatFromContentType contentType in
  if Js.array_includes REKOGNITION_COMPATIBLE_FORMATS originalFormat then
    ret {| buffer := imageBuffer; format := originalFormat; converted := false |}
  else
    try_catch
      (pngBuffer <- convertToPNG imageBuffer ;;
       ret {| buffer := pngBuffer; format := "png"; converted := true |})
      (fun error =>
         log Error "Failed to convert to Rekognition compatible format" ;;;
         throw (ImageProcessorError 500 "RekognitionCompatibilityError"
                  "Failed to convert image to Rekognition compatible format.")).

Definition convertToWebPIfNeeded
    (imageBuffer : Buffer) (contentType : string) : M Conversion :=
  let originalFormat := extractFormatFromContentType contentType in
  if String.eqb originalFormat "webp" then
    ret {| buffer := imageBuffer; format := "webp"; converted := false |}
  else
    try_catch
      (webpBuffer <- convertToWebP imageBuffer ;;
       ret {| buffer := webpBuffer; format := "webp"; converted := true |})
      webp_catch.

End WithEnv.

End ImageProcessor.

(** ** [clients/rekognition.ts] *)

(** The repository holds two revisions of [RekognitionClient]:
    [Legacy] converts inside the scan, asks for labels from confidence 50
    and lists Violence among the rejected labels; [Hybrid] expects a
    converted image, asks from confidence 70, also runs object detection
    (for logging only) and does not list Violence. *)
Inductive Variant := Legacy | Hybrid.

Module RekognitionClient.

Record ContentModerationResult := {
  passed : bool;
  moderationLabels : list string;
  confidence : Q;
  error : option string
}.

(** [label.Confidence || 0] *)
Definition confidence_or_0 (l : Label) : Q :=
  match Confidence l with
  | Some q => q
  | None => 0%Q
  end.

(** [label.Name || ''] *)
Definition name_or_empty (l : Label) : string :=
  match Name l with
  | Some n => n
  | None => ""
  end.

(** [Math.max(a, b)] *)
Definition Math_max (a b : Q) : Q := if Qle_bool a b then b else a.

(** [labels.reduce((max, label) => Math.max(max, label.Confidence || 0), 0)] *)
Definition max_confidence (labels : list Label) : Q :=
  fold_left (fun max label => Math_max max (confidence_or_0 label)) labels 0%Q.

(** [labels.map(label => label.Name || '').filter(Boolean)] *)
Definition label_names (labels : list Label) : list string :=
  List.filter (fun n => negb (String.eqb n "")) (map name_or_empty labels).

(** [explicitContentLabels] of the [Legacy] revision. *)
Definition explicitContentLabels : list string :=
  ["Explicit Nudity"; "Violence"; "Visually Disturbing"; "Hate Symbols";
   "Gambling"; "Drugs"; "Tobacco"; "Alcohol"; "Rude Gestures"; "Adult Content"].

(** [blockedContentLabels] of the [Hybrid] revision. *)
Definition blockedContentLabels : list string :=
  ["Explicit Nudity"; "Visually Disturbing"; "Hate Symbols";
   "Gambling"; "Drugs"; "Tobacco"; "Alcohol"; "Rude Gestures"; "Adult Content"].

(** [labels.some(label => list.includes(label.Name || '') &&
                          (label.Confidence || 0) >= threshold)], and the
    same test under [filter]. *)
Definition listed_at (list : list string) (threshold : Z) (l : Label) : bool :=
  Js.array_includes list (name_or_empty l) &&
  Qle_bool (inject_Z threshold) (confidence_or_0 l).

Definition weaponNames : list string :=
  ["Weapon"; "Gun"; "Firearm"; "Rifle"; "Knife"; "Sword"; "Ammunition"].

Definition combatNames : list string :=
  ["Combat"; "War"; "Military"; "Armor"; "Shield"].

(** [`temp-moderation/${uuidv4()}-${Date.now()}.${ext}`] *)
Definition tempKey_of (uuid : string) (now : Z) (contentType : string) : string :=
  String.append "temp-moderation/"
    (String.append uuid
      (String.append "-"
        (String.append (Js.show_Z now)
          (String.append "."
            (if String.eqb contentType "image/jpeg" then "jpg" else "png"))))).

Section WithEnv.

Variable env : Env.

Definition make_tempKey (contentType : string) : M string :=
  ask (fun w => tempKey_of (uuidv4 env w) (date_now env w) contentType).

Definition s3_put (key : string) (body : Buffer) (contentType : string) : M unit :=
  call (EvS3PutObject key body contentType)
       (fun w => s3_putObject env w key body contentType).

Definition s3_delete (key : string) : M unit :=
  call (EvS3DeleteObject key) (fun w => s3_deleteObject env w key).

(** The outer [catch] clause, the same text in both revisions. *)
Definition scan_catch (tempKey : string) (err : Thrown) : M ContentModerationResult :=
  log Error "Error during content moderation scan" ;;;
  try_catch
    (s3_delete tempKey ;;;
     log Info "Cleaned up temporary S3 object after error")
    (fun cleanupError => log Warn "Failed to clean up temporary S3 object") ;;;
  ret {| passed := false;
         moderationLabels := [];
         confidence := 0%Q;
         error := Some (match error_message err with
                        | Some m => m
                        | None => "Unknown error occurred"
                        end) |}.

(** [Legacy]: [src/clients/rekognition.ts]. *)
Definition legacy_scanImageForModeration
    (imageBuffer : Buffer) (contentType : string) : M ContentModerationResult :=
  log Info "Starting content moderation scan" ;;;
  staged <-
    (if negb (String.eqb contentType "image/jpeg") &&
        negb (String.eqb contentType "image/png")
     then
       log Info "Converting image to PNG for Rekognition compatibility" ;;;
       try_catch
         (let options := {| failOnError := false;
                            limitInputPixels := 268402689;
                            sequentialRead := false |} in
          let png := {| compressionLevel := None; adaptiveFiltering := None |} in
          bytes <- call (EvSharpPng imageBuffer options png)
                     (fun w => sharp_png env w imageBuffer options png) ;;
          rekognitionBuffer <- new_buffer bytes ;;
          log Info "Image converted to PNG successfully for Rekognition" ;;;
          ret (rekognitionBuffer, "image/png"))
         (fun conversionError =>
            log Error "Failed to convert image to PNG for Rekognition" ;;;
            throw (JsError "Error"
              (String.append "Failed to convert image to PNG for Rekognition: "
                 (render_thrown conversionError))))
     else ret (imageBuffer, contentType)) ;;
  let rekognitionBuffer := fst staged in
  let rekognitionContentType := snd staged in
  tempKey <- make_tempKey rekognitionContentType ;;
  try_catch
    (s3_put tempKey rekognitionBuffer rekognitionContentType ;;;
     log Info "Image uploaded to S3 for moderation" ;;;
     moderationResult <-
       call (EvDetectModerationLabels tempKey 50)
            (fun w => rekognition_detectModerationLabels env w tempKey 50) ;;
     log Info "Rekognition moderation scan completed" ;;;
     let labels := match moderationResult with Some l => l | None => [] end in
     let maxConfidence := max_confidence labels in
     let hasExplicitContent :=
       existsb (listed_at explicitContentLabels 70) labels in
     s3_delete tempKey ;;;
     log Info "Temporary S3 object cleaned up" ;;;
     ret {| passed := negb hasExplicitContent;
            moderationLabels := label_names labels;
            confidence := maxConfidence;
            error := None |})
    (scan_catch tempKey).

(** [Hybrid]: the revision written for [index.ts], which converts
    before it calls the scan. *)
Definition hybrid_scanImageForModeration
    (imageBuffer : Buffer) (contentType : string) : M ContentModerationResult :=
  log Info "Starting content moderation scan" ;;;
  let rekognitionBuffer := imageBuffer in
  let rekognitionContentType := contentType in
  tempKey <- make_tempKey rekognitionContentType ;;
  try_catch
    (s3_put tempKey rekognitionBuffer rekognitionContentType ;;;
     log Info "Image uploaded to S3 for moderation" ;;;
     moderationResult <-
       call (EvDetectModerationLabels tempKey 70)
            (fun w => rekognition_detectModerationLabels env w tempKey 70) ;;
     labelsResult <-
       call (EvDetectLabels tempKey 20 50)
            (fun w => rekognition_detectLabels env w tempKey 20 50) ;;
     log Info "Rekognition hybrid scan completed" ;;;
     let labels := match moderationResult with Some l => l | None => [] end in
     let objectLabels := match labelsResult with Some l => l | None => [] end in
     let maxModerationConfidence := max_confidence labels in
     let hasInappropriateContent :=
       existsb (listed_at blockedContentLabels 70) labels in
     let weaponLabels := List.filter (listed_at weaponNames 50) objectLabels in
     let combatLabels := List.filter (listed_at combatNames 50) objectLabels in
     (if (0 <? Z.of_nat (List.length weaponLabels)) ||
         (0 <? Z.of_nat (List.length combatLabels))
      then log Info "Star Citizen game content detected"
      else ret tt) ;;;
     let hasExplicitContent := hasInappropriateContent in
     s3_delete tempKey ;;;
     log Info "Temporary S3 object cleaned up" ;;;
     let result := {| passed := negb hasExplicitContent;
                      moderationLabels := label_names labels;
                      confidence := maxModerationConfidence;
                      error := None |} in
     log Info "Content moderation decision made" ;;;
     ret result)
    (scan_catch tempKey).

Definition scanImageForModeration (v : Variant) :
    Buffer -> string -> M ContentModerationResult :=
  match v with
  | Legacy => legacy_scanImageForModeration
  | Hybrid => hybrid_scanImageForModeration
  end.

End WithEnv.

End RekognitionClient.

(** ** [index.ts] *)

Module Index.

Record UploadRequest := {
  imageData : option string;
  filename : option string;
  contentType : option string
}.

(** The [data] member of a response, one shape per place that builds it. *)
Inductive ResponseData :=
| FileTooLargeData (sizeBytes maxSizeBytes : Z) (sizeMB : string)
| ModerationData (moderationLabels : list string) (confidence : Q)
| UploadedData (filename backblazeUrl originalFormat finalFormat : string)
               (isAppropriate : bool) (confidence : Q).

Record LambdaResponse := {
  success : bool;
  message : string;
  data : option ResponseData;
  error : option string
}.

(** [body] is the response object before [JSON.stringify]; the headers
    are the same constant everywhere. *)
Record APIGatewayProxyResult := {
  statusCode : Z;
  body : LambdaResponse
}.

(** What the module-level [scanImageForModeration] hands back. *)
Record Moderation := {
  passed : bool;
  moderationLabels : list string;
  confidence : Q
}.

Definition maxSizeBytes : Z := 2 * 1024 * 1024.

Definition validation_error : APIGatewayProxyResult :=
  {| statusCode := 400;
     body := {| success := false;
                message := "Missing required fields: imageData and filename";
                data := None;
                error := Some "VALIDATION_ERROR" |} |}.

Definition unsupported_format (contentType : string) : APIGatewayProxyResult :=
  {| statusCode := 400;
     body := {| success := false;
                message :=
                  String.append "Unsupported image format: "
                    (String.append contentType
                       ". Only webp, jpg, and png are supported.");
                data := None;
                error := Some "UNSUPPORTED_FORMAT" |} |}.

Definition file_too_large (sizeMB : string) (size : Z) : APIGatewayProxyResult :=
  {| statusCode := 400;
     body := {| success := false;
                message :=
                  String.append "Image file size too large: "
                    (String.append sizeMB "MB. Maximum allowed size is 2MB.");
                data := Some (FileTooLargeData size maxSizeBytes sizeMB);
                error := Some "FILE_TOO_LARGE" |} |}.

Definition moderation_failed (m : Moderation) : APIGatewayProxyResult :=
  {| statusCode := 400;
     body := {| success := false;
                message := "Image failed moderation checks";
                data := Some (ModerationData (moderationLabels m) (confidence m));
                error := Some "MODERATION_FAILED" |} |}.

Definition uploaded (finalFilename backblazeUrl originalFormat : string)
    (m : Moderation) : APIGatewayProxyResult :=
  {| statusCode := 200;
     body := {| success := true;
                message := "Image successfully processed and uploaded";
                data := Some (UploadedData finalFilename backblazeUrl
                                originalFormat "webp" true (confidence m));
                error := None |} |}.

Definition internal_error : APIGatewayProxyResult :=
  {| statusCode := 500;
     body := {| success := false;
                message := "Internal server error";
                data := None;
                error := Some "INTERNAL_ERROR" |} |}.

(** [body.filename.replace(/\.[^/.]+$/, '.webp')] *)
Definition finalFilename_of (filename : string) : string :=
  Js.replace_extension filename ".webp".

Section WithEnv.

Variable env : Env.
Variable client : Variant.

Definition scanImageForModeration
    (imageBuffer : Buffer) (contentType : string) : M Moderation :=
  try_catch
    (rekognitionImage <-
       ImageProcessor.convertToRekognitionCompatible env imageBuffer contentType ;;
     moderationResult <-
       RekognitionClient.scanImageForModeration env client
         (ImageProcessor.buffer rekognitionImage)
         (ImageProcessor.getMimeType (ImageProcessor.format rekognitionImage)) ;;
     ret {| passed := RekognitionClient.passed moderationResult;
            moderationLabels := RekognitionClient.moderationLabels moderationResult;
            confidence := RekognitionClient.confidence moderationResult |})
    (fun error => throw error).

Definition b2_put (key : string) (body : Buffer) (contentType : string) : M unit :=
  call (EvB2PutObject key body contentType)
       (fun w => b2_putObject env w key body contentType).

Definition uploadImageToBackblaze
    (imageBuffer : Buffer) (filename contentType : string) : M string :=
  try_catch
    (webpImage <-
       ImageProcessor.convertToWebPIfNeeded env imageBuffer contentType ;;
     b2_put filename (ImageProcessor.buffer webpImage)
       (ImageProcessor.getMimeType (ImageProcessor.format webpImage)) ;;;
     ret (String.append
            (match CDN_URL env with Some u => u | None => "undefined" end)
            (String.append "/" filename)))
    (fun error =>
       throw (JsError "Error"
         (String.append "Failed to upload image to Backblaze: "
            (render_thrown error)))).

(** What [handler] does once the scan has returned. *)
Definition after_scan (filename : string) (imageBuffer : Buffer)
    (contentType : string) (moderationResult : Moderation)
    : M APIGatewayProxyResult :=
  if negb (passed moderationResult) then
    log Debug "Image failed moderation checks" ;;;
    ret (moderation_failed moderationResult)
  else
    let finalFilename := finalFilename_of filename in
    backblazeUrl <- uploadImageToBackblaze imageBuffer finalFilename contentType ;;
    ret (uploaded finalFilename backblazeUrl
           (ImageProcessor.extractFormatFromContentType contentType)
           moderationResult).

(** The [try] block of [handler]. *)
Definition handler_try (event : option UploadRequest) : M APIGatewayProxyResult :=
  match event with
  | None =>
      log Debug "Missing required fields in request" ;;;
      ret validation_error
  | Some body =>
      if Js.falsy (imageData body) || Js.falsy (filename body) then
        log Debug "Missing required fields in request" ;;;
        ret validation_error
      else
        let contentType := Js.or_default (contentType body) "image/jpeg" in
        if negb (ImageProcessor.isSupportedFormat contentType) then
          log Debug "Unsupported image format" ;;;
          ret (unsupported_format contentType)
        else
          imageBuffer <-
            new_buffer (base64_decode env (Js.or_default (imageData body) "")) ;;
          if buf_length imageBuffer >? maxSizeBytes then
            log Debug "Image file size too large" ;;;
            ret (file_too_large (toFixed2_MB env (buf_length imageBuffer))
                   (buf_length imageBuffer))
          else
            moderationResult <- scanImageForModeration imageBuffer contentType ;;
            after_scan (Js.or_default (filename body) "") imageBuffer
              contentType moderationResult
  end.

Definition handler (event : option UploadRequest) : M APIGatewayProxyResult :=
  try_catch (handler_try event)
    (fun error =>
       log Error "Unexpected error processing image" ;;;
       ret internal_error).

End WithEnv.

End Index.

(** ** Observations on a trace *)

Definition is_delete (e : Event) : bool :=
  match e with EvS3DeleteObject _ => true | _ => false end.

Definition is_b2_put (e : Event) : bool :=
  match e with EvB2PutObject _ _ _ => true | _ => false end.

Definition is_log (level : LogLevel) (text : string) (e : Event) : bool :=
  match e with
  | EvLog l m =>
      String.eqb m text &&
      match l, level with
      | Debug, Debug | Info, Info | Warn, Warn | Error, Error => true
      | _, _ => false
      end
  | _ => false
  end.

(** How many events of a kind a world has seen. *)
Definition count (p : Event -> bool) (w : World) : nat :=
  List.length (List.filter p (trace w)).

(** ** A scripted environment for concrete runs *)

(** Collaborators that answer the same thing whenever asked, except for
    [deleteObject], whose answer may depend on the calls made so far.  The
    decoder only stands in for base64: it yields one byte per character. *)
Definition scripted
    (metadata : Thrown + Metadata)
    (png webp : Thrown + list Byte.byte)
    (staged : Thrown + unit)
    (deleted : World -> Thrown + unit)
    (moderation objects : Thrown + option (list Label))
    (published : Thrown + unit) : Env :=
  {| CDN_URL := Some "https://cdn.example";
     base64_decode := fun s => map Ascii.byte_of_ascii (list_ascii_of_string s);
     toFixed2_MB := fun _ => "0.00";
     uuidv4 := fun w => "uuid";
     date_now := fun w => 1700000000000;
     sharp_metadata := fun _ _ _ => metadata;
     sharp_png := fun _ _ _ _ => png;
     sharp_webp := fun _ _ _ _ => webp;
     s3_putObject := fun _ _ _ _ => staged;
     s3_deleteObject := fun w _ => deleted w;
     rekognition_detectModerationLabels := fun _ _ _ => moderation;
     rekognition_detectLabels := fun _ _ _ _ => objects;
     b2_putObject := fun _ _ _ _ => published |}.

Definition some_metadata : Metadata := {| width := Some 640; height := Some 480 |}.

Definition label (name : string) (confidence : Z) : Label :=
  {| Name := Some name; Confidence := Some (inject_Z confidence) |}.

(** Every collaborator succeeds; Rekognition reports [labels]. *)
Definition calm (labels : list Label) : Env :=
  scripted (inr some_metadata) (inr [Byte.x89]) (inr [Byte.x52]) (inr tt)
    (fun _ => inr tt) (inr (Some labels)) (inr (Some [])) (inr tt).

(** As [calm], but the first [deleteObject] of the request fails. *)
Definition first_delete_fails (labels : list Label) : Env :=
  scripted (inr some_metadata) (inr [Byte.x89]) (inr [Byte.x52]) (inr tt)
    (fun w => if Nat.eqb (count is_delete w) 0
              then inl (JsError "ServiceUnavailable" "Slow Down")
              else inr tt)
    (inr (Some labels)) (inr (Some [])) (inr tt).

(** As [calm], but the codec fails to read the image with [message]. *)
Definition unreadable (message : string) : Env :=
  scripted (inl (JsError "Error" message)) (inr [Byte.x89]) (inr [Byte.x52])
    (inr tt) (fun _ => inr tt) (inr (Some [])) (inr (Some [])) (inr tt).

Definition start : World := {| trace := []; next_buffer := 0 |}.

Definition request (data name : string) (type : option string) : Index.UploadRequest :=
  {| Index.imageData := Some data;
     Index.filename := Some name;
     Index.contentType := type |}.

(** ** Reference definitions for the statements *)

(** A jpeg already in memory, and the world right after it was read. *)
Definition sample : Buffer := {| buf_id := 0; buf_bytes := [Byte.xff; Byte.xd8; Byte.xff] |}.
Definition loaded : World := {| trace := []; next_buffer := 1 |}.

(** The labels a revision rejects, and the confidence it asks Rekognition
    to report from. *)
Definition rejected (v : Variant) : list string :=
  match v with
  | Legacy => RekognitionClient.explicitContentLabels
  | Hybrid => RekognitionClient.blockedContentLabels
  end.

Definition asked_from (v : Variant) : Z :=
  match v with Legacy => 50 | Hybrid => 70 end.

(** The two shapes of result a scan builds: from the labels of a reply,
    and from whatever its [catch] clause received. *)
Definition verdict_on (v : Variant) (reply : option (list Label))
    : RekognitionClient.ContentModerationResult :=
  let labels := match reply with Some l => l | None => [] end in
  {| RekognitionClient.passed :=
       negb (existsb (RekognitionClient.listed_at (rejected v) 70) labels);
     RekognitionClient.moderationLabels := RekognitionClient.label_names labels;
     RekognitionClient.confidence := RekognitionClient.max_confidence labels;
     RekognitionClient.error := None |}.

Definition verdict_after (t : Thrown) : RekognitionClient.ContentModerationResult :=
  {| RekognitionClient.passed := false;
     RekognitionClient.moderationLabels := [];
     RekognitionClient.confidence := 0%Q;
     RekognitionClient.error :=
       Some (match error_message t with
             | Some m => m
             | None => "Unknown error occurred"
             end) |}.

(** From the specification: the fixed list of disallowed categories, in
    Rekognition's spelling. *)
Definition DisallowedSet : list string :=
  ["Explicit Nudity"; "Visually Disturbing"; "Hate Symbols"; "Gambling";
   "Drugs"; "Tobacco"; "Alcohol"; "Rude Gestures"; "Adult Content"].

(** From the specification (section 4.6): the signals looked for in the
    message of a failure. *)
Definition memory_signal (m : string) : bool :=
  Js.includes m "memory" || Js.includes m "buffer".

Definition dimension_signal (m : string) : bool :=
  Js.includes m "pixel" || Js.includes m "dimension".

Definition unrecognized_signal (m : string) : bool :=
  Js.includes m "unsupported image format" ||
  Js.includes m "Input buffer contains unsupported image format".

Definition timeout_signal (m : string) : bool :=
  Js.includes m "timeout" || Js.includes m "timed out".

(** From the specification: the kind of a decode failure, in the stated
    priority order. *)
Definition spec_decode_kind (t : Thrown) : string :=
  match error_message t with
  | Some m =>
      if memory_signal m then "MemoryLimitExceeded"
      else if dimension_signal m then "ImageTooLarge"
      else if unrecognized_signal m then "InvalidImageFormat"
      else "InstantiationError"
  | None => "InstantiationError"
  end.

(** From the specification: the kind of a failure during webp conversion. *)
Definition spec_webp_kind (t : Thrown) : string :=
  match error_message t with
  | Some m =>
      if memory_signal m then "MemoryLimitExceeded"
      else if timeout_signal m then "ProcessingTimeout"
      else "WebPConversionError"
  | None => "WebPConversionError"
  end.

(** The amendment: the word buffer counts as a capacity signal only in a
    message that does not also say that the format is unsupported. *)
Definition capacity_signal (m : string) : bool :=
  Js.includes m "memory" ||
  (Js.includes m "buffer" && negb (unrecognized_signal m)).

Definition decode_kind (t : Thrown) : string :=
  match error_message t with
  | Some m =>
      if capacity_signal m then "MemoryLimitExceeded"
      else if dimension_signal m then "ImageTooLarge"
      else if unrecognized_signal m then "InvalidImageFormat"
      else "InstantiationError"
  | None => "InstantiationError"
  end.

(** The amendment: a failure that already is an [ImageProcessorError]
    (one raised by the decode step) keeps its kind. *)
Definition webp_kind (t : Thrown) : string :=
  match t with
  | ImageProcessorError _ kind _ => kind
  | _ => spec_webp_kind t
  end.

(** From the specification (section 4.3, step 4) and from the code sample
    of COMPRESSION_AND_SAFETY.md: the options by original byte length. *)
Definition documented_webpOptions (imageBuffer : Buffer) : WebpOptions :=
  if buf_length imageBuffer >? 1024 * 1024
  then {| quality := Some 75; effort := Some 5 |}
  else {| quality := Some 80; effort := Some 4 |}.

(** Does [/\.[^/.]+$/] match somewhere in [s]? *)
Fixpoint has_extension (s : string) : bool :=
  Js.matches_extension_here s ||
  match s with
  | EmptyString => false
  | String _ t => has_extension t
  end.

(** The request [body] with another declared content type. *)
Definition with_contentType (body : Index.UploadRequest) (type : option string)
    : Index.UploadRequest :=
  {| Index.imageData := Index.imageData body;
     Index.filename := Index.filename body;
     Index.contentType := type |}.

(** ** Further observations on calls and messages *)

(** The content types under which a request stages and publishes, and the
    codec options under which it makes a png. *)
Definition well_typed_call (e : Event) : Prop :=
  match e with
  | EvS3PutObject _ _ contentType =>
      contentType = "image/jpeg" \/ contentType = "image/png"
  | EvB2PutObject _ _ contentType => contentType = "image/webp"
  | EvSharpPng _ options _ => options = ImageProcessor.enhancedOptions
  | _ => True
  end.

(** The codec is only asked to read [b]. *)
Definition codec_reads (b : Buffer) (e : Event) : Prop :=
  match e with
  | EvSharpMetadata input _ => input = b
  | EvSharpPng input _ _ => input = b
  | EvSharpWebp input _ _ => input = b
  | _ => True
  end.

Definition is_codec_call (e : Event) : bool :=
  match e with
  | EvSharpMetadata _ _ | EvSharpPng _ _ _ | EvSharpWebp _ _ _ => true
  | _ => false
  end.

Definition is_rekognition_call (e : Event) : bool :=
  match e with
  | EvDetectModerationLabels _ _ | EvDetectLabels _ _ _ => true
  | _ => false
  end.

(** Every S3 and Rekognition call of [e] is about the object [k]. *)
Definition uses_key (k : string) (e : Event) : Prop :=
  match e with
  | EvS3PutObject key _ _ => key = k
  | EvS3DeleteObject key => key = k
  | EvDetectModerationLabels key _ => key = k
  | EvDetectLabels key _ _ => key = k
  | _ => True
  end.

(** The content types for which the Legacy revision stages its input as
    it is; the Hybrid revision does so for every content type. *)
Definition staged_as_given (v : Variant) (contentType : string) : Prop :=
  v = Hybrid \/ contentType = "image/jpeg" \/ contentType = "image/png".

(** The calls that leave the process for S3, Rekognition or Backblaze. *)
Definition is_remote_call (e : Event) : bool :=
  match e with
  | EvS3PutObject _ _ _ | EvS3DeleteObject _
  | EvDetectModerationLabels _ _ | EvDetectLabels _ _ _
  | EvB2PutObject _ _ _ => true
  | _ => false
  end.

(** [c] occurs nowhere in [s]. *)
Definition lacks (c : ascii) (s : string) : bool :=
  Js.all_chars (fun a => negb (Ascii.eqb a c)) s.

Definition is_decimal_char (a : ascii) : bool :=
  Js.array_includes ["0"; "1"; "2"; "3"; "4"; "5"; "6"; "7"; "8"; "9"; "-"]
    (String a "").

(** The dimension guard of [instantiateSharpImage]: both sides are
    reported and one of them is above [MAX_IMAGE_DIMENSION]. *)
Definition over_limit (m : Metadata) : bool :=
  ImageProcessor.truthy (width m) && ImageProcessor.truthy (height m) &&
  (ImageProcessor.exceeds (width m) ImageProcessor.MAX_IMAGE_DIMENSION ||
   ImageProcessor.exceeds (height m) ImageProcessor.MAX_IMAGE_DIMENSION).

(** The options [convertToPNG] encodes with. *)
Definition scan_png : PngOptions :=
  {| compressionLevel := Some 6; adaptiveFiltering := Some true |}.

(** The codec makes a png of [b] from the world [w]: it reads the
    metadata, they are within the limit, and it encodes [bytes]. *)
Definition codec_makes_png (env : Env) (b : Buffer) (w : World)
    (bytes : list Byte.byte) : Prop :=
  exists metadata,
    sharp_metadata env w b ImageProcessor.enhancedOptions = inr metadata /\
    over_limit metadata = false /\
    sharp_png env
      (record (EvSharpMetadata b ImageProcessor.enhancedOptions) w)
      b ImageProcessor.enhancedOptions scan_png = inr bytes.

(** No restriction on the events of a run. *)
Definition any_event (e : Event) : Prop := True.

(** ** What a computation adds to the trace *)

(** [w'] continues [w]: the events of [w] are kept, the new ones all
    satisfy [P], and no buffer identity is handed out twice. *)
Definition grows (P : Event -> Prop) (w w' : World) : Prop :=
  exists evs,
    trace w' = (evs ++ trace w)%list /\
    Forall P evs /\
    (next_buffer w <= next_buffer w')%nat.

(** Every run of [m], whatever its outcome, only adds events in [P]. *)
Definition emits {A} (P : Event -> Prop) (m : M A) : Prop :=
  forall w, grows P w (snd (m w)).

(** The events that stay inside the scan and conversion stages. *)
Definition internal (e : Event) : Prop := is_b2_put e = false.

Section Grows.

Context {P : Event -> Prop}.

Lemma grows_refl w : grows P w w.
Proof. exists []. repeat split; [constructor | lia]. Qed.

Lemma grows_trans w1 w2 w3 : grows P w1 w2 -> grows P w2 w3 -> grows P w1 w3.
Proof.
  intros (e1 & H1 & F1 & N1) (e2 & H2 & F2 & N2).
  exists (e2 ++ e1)%list. repeat split.
  - rewrite H2, H1. apply List.app_assoc.
  - apply Forall_app; split; assumption.
  - lia.
Qed.

Lemma grows_record e w : P e -> grows P w (record e w).
Proof.
  intros He. exists [e]. repeat split; [repeat constructor; exact He | simpl; lia].
Qed.

Lemma emits_ret {A} (a : A) : emits P (ret a).
Proof. intros w. apply grows_refl. Qed.

Lemma emits_throw {A} t : emits P (@throw A t).
Proof. intros w. apply grows_refl. Qed.

Lemma emits_ask {R} (f : World -> R) : emits P (ask f).
Proof. intros w. apply grows_refl. Qed.

Lemma emits_new_buffer bytes : emits P (new_buffer bytes).
Proof. intros w. exists []. repeat split; [constructor | simpl; lia]. Qed.

Lemma emits_log level text : P (EvLog level text) -> emits P (log level text).
Proof. intros He w. apply grows_record, He. Qed.

Lemma emits_call {R} e (answer : World -> Thrown + R) :
  P e -> emits P (call e answer).
Proof.
  intros He w. unfold call. destruct (answer w); apply grows_record, He.
Qed.

Lemma emits_bind {A B} (m : M A) (k : A -> M B) :
  emits P m -> (forall a, emits P (k a)) -> emits P (bind m k).
Proof.
  intros Hm Hk w. unfold bind. specialize (Hm w).
  destruct (m w) as [[a | t] w']; simpl in Hm; [ | exact Hm].
  eapply grows_trans; [exact Hm | apply Hk].
Qed.

Lemma emits_try {A} (m : M A) (h : Thrown -> M A) :
  emits P m -> (forall t, emits P (h t)) -> emits P (try_catch m h).
Proof.
  intros Hm Hh w. unfold try_catch. specialize (Hm w).
  destruct (m w) as [[a | t] w']; simpl in Hm; [exact Hm | ].
  eapply grows_trans; [exact Hm | apply Hh].
Qed.

End Grows.

Lemma grows_weaken (P Q : Event -> Prop) w w' :
  (forall e, P e -> Q e) -> grows P w w' -> grows Q w w'.
Proof.
  intros HPQ (evs & H & F & N). exists evs.
  split; [exact H | split; [ | exact N]].
  clear H. induction F; constructor; auto.
Qed.

Lemma emits_weaken {A} (P Q : Event -> Prop) (m : M A) :
  (forall e, P e -> Q e) -> emits P m -> emits Q m.
Proof. intros HPQ Hm w. eapply grows_weaken; [exact HPQ | apply Hm]. Qed.

(** New events in [P] leave the count of a kind that [P] excludes alone. *)
Lemma grows_count (p : Event -> bool) (P : Event -> Prop) w w' :
  (forall e, P e -> p e = false) -> grows P w w' -> count p w' = count p w.
Proof.
  intros HP (evs & H & F & _). unfold count. rewrite H.
  rewrite List.filter_app, List.length_app.
  replace (List.filter p evs) with (@nil Event); [reflexivity | ].
  clear H. induction F as [ | e evs He _ IH]; simpl; [reflexivity | ].
  rewrite (HP e He). exact IH.
Qed.

Create HintDb emits.

(** One structural step of a proof that a program only emits events in
    the predicate at hand. *)
Ltac emits_step :=
  first
    [ solve [auto with emits nocore]
    | apply emits_ret | apply emits_throw | apply emits_ask
    | apply emits_new_buffer
    | apply emits_log; solve [reflexivity | exact I | intros; congruence]
    | apply emits_call; solve [reflexivity | exact I | intros; congruence]
    | apply emits_bind; [ | intros ? ]
    | apply emits_try; [ | intros ? ]
    | match goal with
      | |- emits _ (if ?b then _ else _) => destruct b
      | |- emits _ (match ?x with _ => _ end) => destruct x
      end ].

Ltac emits_all := cbv zeta; repeat emits_step.

Section StagesAreInternal.

Variable env : Env.

Lemma instantiateSharpImage_internal b :
  emits internal (ImageProcessor.instantiateSharpImage env b).
Proof.
  unfold ImageProcessor.instantiateSharpImage,
    ImageProcessor.instantiateSharpImage_catch.
  emits_all.
Qed.
Hint Resolve instantiateSharpImage_internal : emits.

Lemma webp_catch_internal {A} t : emits internal (@ImageProcessor.webp_catch A t).
Proof. unfold ImageProcessor.webp_catch. emits_all. Qed.
Hint Resolve @webp_catch_internal : emits.

Lemma convertToPNG_internal b : emits internal (ImageProcessor.convertToPNG env b).
Proof. unfold ImageProcessor.convertToPNG. emits_all. Qed.
Hint Resolve convertToPNG_internal : emits.

Lemma convertToWebP_internal b : emits internal (ImageProcessor.convertToWebP env b).
Proof. unfold ImageProcessor.convertToWebP. emits_all. Qed.
Hint Resolve convertToWebP_internal : emits.

Lemma convertToRekognitionCompatible_internal b ct :
  emits internal (ImageProcessor.convertToRekognitionCompatible env b ct).
Proof. unfold ImageProcessor.convertToRekognitionCompatible. emits_all. Qed.

Lemma convertToWebPIfNeeded_internal b ct :
  emits internal (ImageProcessor.convertToWebPIfNeeded env b ct).
Proof. unfold ImageProcessor.convertToWebPIfNeeded. emits_all. Qed.

Lemma scan_catch_internal key t :
  emits internal (RekognitionClient.scan_catch env key t).
Proof.
  unfold RekognitionClient.scan_catch, RekognitionClient.s3_delete. emits_all.
Qed.
Hint Resolve scan_catch_internal : emits.

Lemma RekognitionClient_scan_internal v b ct :
  emits internal (RekognitionClient.scanImageForModeration env v b ct).
Proof.
  destruct v; simpl;
    unfold RekognitionClient.legacy_scanImageForModeration,
      RekognitionClient.hybrid_scanImageForModeration,
      RekognitionClient.make_tempKey, RekognitionClient.s3_put,
      RekognitionClient.s3_delete;
    emits_all.
Qed.

Lemma scanImageForModeration_internal v b ct :
  emits internal (Index.scanImageForModeration env v b ct).
Proof.
  unfold Index.scanImageForModeration.
  pose proof convertToRekognitionCompatible_internal.
  pose proof RekognitionClient_scan_internal.
  emits_all.
Qed.

End StagesAreInternal.

(** ** The handler after the scan *)

Section Handler.

Variable env : Env.
Variable client : Variant.

(** How [handler] runs once the request has passed the cheap checks and
    its bytes are in [imageBuffer]: the scan, then whatever follows it. *)
Lemma handler_reaches_scan body w imageBuffer w1 :
  Js.falsy (Index.imageData body) = false ->
  Js.falsy (Index.filename body) = false ->
  ImageProcessor.isSupportedFormat
    (Js.or_default (Index.contentType body) "image/jpeg") = true ->
  new_buffer (base64_decode env (Js.or_default (Index.imageData body) "")) w
    = (Returned imageBuffer, w1) ->
  (buf_length imageBuffer >? Index.maxSizeBytes) = false ->
  Index.handler env client (Some body) w =
  try_catch
    (moderationResult <-
       Index.scanImageForModeration env client imageBuffer
         (Js.or_default (Index.contentType body) "image/jpeg") ;;
     Index.after_scan env (Js.or_default (Index.filename body) "") imageBuffer
       (Js.or_default (Index.contentType body) "image/jpeg") moderationResult)
    (fun error =>
       log Error "Unexpected error processing image" ;;;
       ret Index.internal_error)
    w1.
Proof.
  intros Hdata Hname Hformat Hbuf Hsize.
  unfold Index.handler, Index.handler_try.
  rewrite Hdata, Hname, Hformat. cbn [orb negb].
  unfold try_catch at 1. unfold bind at 1. rewrite Hbuf.
  rewrite Hsize. reflexivity.
Qed.

End Handler.

(** C1.  Whenever a request gets as far as the moderation scan and the scan
    returns a verdict with [passed = false], the handler answers with the
    400 MODERATION_FAILED response that carries the verdict's labels and
    confidence, and nothing the request did, from its first step to its
    last, is a Backblaze [putObject]. *)
Theorem failed_moderation_never_reaches_backblaze
    env client body w imageBuffer w1 verdict w2 :
  Js.falsy (Index.imageData body) = false ->
  Js.falsy (Index.filename body) = false ->
  ImageProcessor.isSupportedFormat
    (Js.or_default (Index.contentType body) "image/jpeg") = true ->
  new_buffer (base64_decode env (Js.or_default (Index.imageData body) "")) w
    = (Returned imageBuffer, w1) ->
  (buf_length imageBuffer >? Index.maxSizeBytes) = false ->
  Index.scanImageForModeration env client imageBuffer
    (Js.or_default (Index.contentType body) "image/jpeg") w1
    = (Returned verdict, w2) ->
  Index.passed verdict = false ->
  exists w3,
    Index.handler env client (Some body) w
      = (Returned
           {| Index.statusCode := 400;
              Index.body :=
                {| Index.success := false;
                   Index.message := "Image failed moderation checks";
                   Index.data :=
                     Some (Index.ModerationData
                             (Index.moderationLabels verdict)
                             (Index.confidence verdict));
                   Index.error := Some "MODERATION_FAILED" |} |},
         w3) /\
    grows (fun e => is_b2_put e = false) w w3.
Proof.
  intros Hdata Hname Hformat Hbuf Hsize Hscan Hfail.
  rewrite (handler_reaches_scan env client body w imageBuffer w1)
    by assumption.
  unfold try_catch, bind. rewrite Hscan.
  unfold Index.after_scan. rewrite Hfail. simpl.
  eexists. split; [reflexivity | ].
  apply grows_trans with w1.
  { unfold new_buffer in Hbuf. inversion Hbuf; subst.
    exists []. repeat split; [constructor | simpl; lia]. }
  apply grows_trans with w2.
  { pose proof (scanImageForModeration_internal env client imageBuffer
      (Js.or_default (Index.contentType body) "image/jpeg") w1) as H.
    rewrite Hscan in H. exact H. }
  apply grows_record. reflexivity.
Qed.

(** A png request whose image Rekognition labels Explicit Nudity at 91. *)
Lemma failed_moderation_never_reaches_backblaze_witness :
  exists w3,
    Index.handler (calm [label "Explicit Nudity" 91]) Hybrid
      (Some (request "aGVsbG8=" "shot.png" (Some "image/png"))) start
      = (Returned
           {| Index.statusCode := 400;
              Index.body :=
                {| Index.success := false;
                   Index.message := "Image failed moderation checks";
                   Index.data :=
                     Some (Index.ModerationData ["Explicit Nudity"] (inject_Z 91));
                   Index.error := Some "MODERATION_FAILED" |} |},
         w3) /\
    grows (fun e => is_b2_put e = false) start w3.
Proof.
  pose (env := calm [label "Explicit Nudity" 91]).
  pose (body := request "aGVsbG8=" "shot.png" (Some "image/png")).
  pose (w1 := snd (new_buffer (base64_decode env "aGVsbG8=") start)).
  pose (buf := {| buf_id := 0; buf_bytes := base64_decode env "aGVsbG8=" |}).
  pose (run := Index.scanImageForModeration env Hybrid buf "image/png" w1).
  pose (verdict := {| Index.passed := false;
                      Index.moderationLabels := ["Explicit Nudity"];
                      Index.confidence := inject_Z 91 |}).
  apply (failed_moderation_never_reaches_backblaze env Hybrid body start
           buf w1 verdict (snd run));
    vm_compute; reflexivity.
Defined.

(** ** Reading a run backwards *)

Section Inversion.

Context {A B : Type}.

Lemma bind_inv (m : M A) (k : A -> M B) w o w' :
  bind m k w = (o, w') ->
  (exists a w1, m w = (Returned a, w1) /\ k a w1 = (o, w')) \/
  (exists t, m w = (Threw t, w') /\ o = Threw t).
Proof.
  unfold bind. destruct (m w) as [[a | t] w1]; intros H.
  - left. eauto.
  - right. inversion H; subst. eauto.
Qed.

Lemma try_inv (m : M A) (h : Thrown -> M A) w o w' :
  try_catch m h w = (o, w') ->
  (exists a, m w = (Returned a, w') /\ o = Returned a) \/
  (exists t w1, m w = (Threw t, w1) /\ h t w1 = (o, w')).
Proof.
  unfold try_catch. destruct (m w) as [[a | t] w1]; intros H.
  - left. inversion H; subst. eauto.
  - right. eauto.
Qed.

Lemma call_inv e (answer : World -> Thrown + A) w o w' :
  call e answer w = (o, w') ->
  w' = record e w /\
  ((exists a, answer w = inr a /\ o = Returned a) \/
   (exists t, answer w = inl t /\ o = Threw t)).
Proof.
  unfold call. destruct (answer w) as [t | a]; intros H;
    inversion H; subst; eauto.
Qed.

Lemma ret_inv (a : A) w o w' : ret a w = (o, w') -> o = Returned a /\ w' = w.
Proof. unfold ret. intros H. inversion H; auto. Qed.

Lemma throw_inv t w (o : Outcome A) w' :
  throw t w = (o, w') -> o = Threw t /\ w' = w.
Proof. unfold throw. intros H. inversion H; auto. Qed.

Lemma ask_inv (f : World -> A) w o w' :
  ask f w = (o, w') -> o = Returned (f w) /\ w' = w.
Proof. unfold ask. intros H. inversion H; auto. Qed.

End Inversion.

Lemma log_inv level text w o w' :
  log level text w = (o, w') -> o = Returned tt /\ w' = record (EvLog level text) w.
Proof. unfold log. intros H. inversion H; auto. Qed.

Lemma new_buffer_inv bytes w o w' :
  new_buffer bytes w = (o, w') ->
  o = Returned {| buf_id := next_buffer w; buf_bytes := bytes |} /\
  w' = {| trace := trace w; next_buffer := S (next_buffer w) |}.
Proof. unfold new_buffer. intros H. inversion H; auto. Qed.

(** Splits a hypothesis about a run into the runs of its steps, one case
    per way the steps can end. *)
Ltac invert_step :=
  match goal with
  | H : Returned _ = Threw _ |- _ => discriminate H
  | H : Threw _ = Returned _ |- _ => discriminate H
  | H : Returned _ = Returned _ |- _ => injection H as H; subst
  | H : Threw _ = Threw _ |- _ => injection H as H; subst
  | H : (_, _) = (_, _) |- _ => injection H as ? ?; subst
  | u : unit |- _ => destruct u
  | H : log _ _ _ = _ |- _ => apply log_inv in H; destruct H as [H ?]; subst
  | H : ret _ _ = _ |- _ => apply ret_inv in H; destruct H as [H ?]; subst
  | H : throw _ _ = _ |- _ => apply throw_inv in H; destruct H as [H ?]; subst
  | H : ask _ _ = _ |- _ => apply ask_inv in H; destruct H as [H ?]; subst
  | H : new_buffer _ _ = _ |- _ =>
      apply new_buffer_inv in H; destruct H as [H ?]; subst
  | H : call _ _ _ = _ |- _ =>
      apply call_inv in H; destruct H as [? [(? & ? & H) | (? & ? & H)]];
      cbv beta in *; subst
  | H : bind _ _ _ = _ |- _ =>
      apply bind_inv in H; destruct H as [(? & ? & ? & H) | (? & ? & H)];
      [cbv beta zeta in H | subst]
  | H : try_catch _ _ _ = _ |- _ =>
      apply try_inv in H; destruct H as [(? & ? & H) | (? & ? & ? & H)];
      [subst | cbv beta zeta in H]
  | H : (if ?b then _ else _) _ = _ |- _ => destruct b eqn:?
  | H : match ?x with _ => _ end _ = _ |- _ => destruct x eqn:?
  end.

Ltac invert_run := cbv beta zeta in *; repeat invert_step.

(** ** The transient object and its cleanup *)

Ltac unfold_scan :=
  unfold RekognitionClient.scanImageForModeration,
    RekognitionClient.legacy_scanImageForModeration,
    RekognitionClient.hybrid_scanImageForModeration,
    RekognitionClient.scan_catch, RekognitionClient.make_tempKey,
    RekognitionClient.s3_put, RekognitionClient.s3_delete in *.

Section Cleanup.

Variable env : Env.

(** The ways a scan can return.  Either every step worked: the result is
    read off Rekognition's reply and the transient object was deleted
    once.  Or some step threw [t] and the [catch] clause answered: then
    the object was deleted once, unless [t] came from the first
    [deleteObject] itself, which makes two. *)
Lemma scan_paths v b ct w r w' :
  RekognitionClient.scanImageForModeration env v b ct w = (Returned r, w') ->
  (exists w0 key reply,
      rekognition_detectModerationLabels env w0 key (asked_from v) = inr reply /\
      r = verdict_on v reply /\
      (exists w1, s3_deleteObject env w1 key = inr tt) /\
      count is_delete w' = S (count is_delete w)) \/
  (exists t,
      r = verdict_after t /\
      (count is_delete w' = S (count is_delete w) \/
       (exists w1 key, s3_deleteObject env w1 key = inl t) /\
       count is_delete w' = S (S (count is_delete w)))).
Proof.
  intros H. destruct v; unfold_scan; invert_run;
    solve
      [ left; do 3 eexists;
        split; [eassumption | ];
        split; [reflexivity | ];
        split; [eexists; eassumption | reflexivity ]
      | right; eexists; split; [reflexivity | ];
        first [ left; reflexivity
              | right; split; [do 2 eexists; eassumption | reflexivity] ] ].
Qed.

(** Every scan that returns has asked for the transient object to be
    deleted once or twice. *)
Lemma scan_deletes_once_or_twice v b ct w r w' :
  RekognitionClient.scanImageForModeration env v b ct w = (Returned r, w') ->
  count is_delete w' = S (count is_delete w) \/
  count is_delete w' = S (S (count is_delete w)).
Proof.
  intros H. apply scan_paths in H.
  destruct H as [(? & ? & ? & _ & _ & _ & H) | (? & _ & [H | [_ H]])]; auto.
Qed.

(** It is once whenever [deleteObject] itself does not fail. *)
Lemma scan_deletes_once_if_delete_succeeds v b ct w r w' :
  (forall w0 key, s3_deleteObject env w0 key = inr tt) ->
  RekognitionClient.scanImageForModeration env v b ct w = (Returned r, w') ->
  count is_delete w' = S (count is_delete w).
Proof.
  intros Hdel H. apply scan_paths in H.
  destruct H as [(? & ? & ? & _ & _ & _ & H)
                | (? & _ & [H | [(w1 & key & E) _]])]; auto.
  rewrite Hdel in E. discriminate E.
Qed.

(** While [deleteObject] fails no scan passes: the failure of the
    cleanup is what the caller is told. *)
Lemma scan_never_passes_if_delete_fails v b ct w r w' :
  (forall w0 key, exists t, s3_deleteObject env w0 key = inl t) ->
  RekognitionClient.scanImageForModeration env v b ct w = (Returned r, w') ->
  RekognitionClient.passed r = false /\
  RekognitionClient.error r <> None.
Proof.
  intros Hdel H. apply scan_paths in H.
  destruct H as [(? & key & ? & _ & _ & (w1 & E) & _) | (t & -> & _)].
  - destruct (Hdel w1 key) as [t Ht]. rewrite Ht in E. discriminate E.
  - split; [reflexivity | discriminate].
Qed.

End Cleanup.

(** C2.  The claim is that every scan deletes the transient object
    exactly once.  Here Rekognition finds nothing and the first
    [deleteObject] fails: both revisions then call [deleteObject] a second
    time from their [catch] clause, so the scan makes two delete calls. *)
Theorem failed_cleanup_deletes_twice :
  forall v,
    count is_delete
      (snd (RekognitionClient.scanImageForModeration (first_delete_fails []) v
              sample "image/jpeg" loaded)) = 2%nat.
Proof. intros [ | ]; vm_compute; reflexivity. Qed.

(** C3.  The claim is that a cleanup failure never turns a passing verdict
    into a failing one.  With the same collaborators as above, except that
    the delete works, the scan passes; when the delete fails the scan
    answers [passed = false] and reports the delete's message as the
    scan's error, having logged it as an error of the scan and not as a
    failed cleanup. *)
Theorem failed_cleanup_flips_the_verdict :
  forall v,
    fst (RekognitionClient.scanImageForModeration (calm []) v
           sample "image/jpeg" loaded)
      = Returned {| RekognitionClient.passed := true;
                    RekognitionClient.moderationLabels := [];
                    RekognitionClient.confidence := 0%Q;
                    RekognitionClient.error := None |} /\
    fst (RekognitionClient.scanImageForModeration (first_delete_fails []) v
           sample "image/jpeg" loaded)
      = Returned {| RekognitionClient.passed := false;
                    RekognitionClient.moderationLabels := [];
                    RekognitionClient.confidence := 0%Q;
                    RekognitionClient.error := Some "Slow Down" |} /\
    count (is_log Error "Error during content moderation scan")
      (snd (RekognitionClient.scanImageForModeration (first_delete_fails []) v
              sample "image/jpeg" loaded)) = 1%nat /\
    count (is_log Warn "Failed to clean up temporary S3 object")
      (snd (RekognitionClient.scanImageForModeration (first_delete_fails []) v
              sample "image/jpeg" loaded)) = 0%nat.
Proof. intros [ | ]; repeat split; vm_compute; reflexivity. Qed.

(** ** Which labels reject an image *)

Lemma array_includes_In arr x : Js.array_includes arr x = true <-> In x arr.
Proof.
  unfold Js.array_includes. rewrite existsb_exists. split.
  - intros (y & Hy & E). apply String.eqb_eq in E. subst. exact Hy.
  - intros H. exists x. split; [exact H | apply String.eqb_refl].
Qed.

Lemma rejected_spec v n :
  In n (rejected v) <-> In n DisallowedSet \/ (v = Legacy /\ n = "Violence").
Proof.
  destruct v; simpl; split; intros H.
  - decompose [or] H; subst; auto 20; contradiction.
  - destruct H as [H | [_ ->]]; [ | auto]. decompose [or] H; auto 20.
  - decompose [or] H; subst; auto 20; contradiction.
  - destruct H as [H | [H _]]; [ | discriminate H]. decompose [or] H; auto 20.
Qed.

Lemma listed_at_spec list threshold l :
  RekognitionClient.listed_at list threshold l = true <->
  In (RekognitionClient.name_or_empty l) list /\
  (inject_Z threshold <= RekognitionClient.confidence_or_0 l)%Q.
Proof.
  unfold RekognitionClient.listed_at.
  rewrite andb_true_iff, array_includes_In, Qle_bool_iff. reflexivity.
Qed.

(** The verdict built from a reply fails exactly when the reply holds a
    rejected label at confidence 70 or more. *)
Lemma verdict_on_fails v reply :
  RekognitionClient.passed (verdict_on v reply) = false <->
  exists l,
    In l (match reply with Some ls => ls | None => [] end) /\
    In (RekognitionClient.name_or_empty l) (rejected v) /\
    (inject_Z 70 <= RekognitionClient.confidence_or_0 l)%Q.
Proof.
  unfold verdict_on. simpl. rewrite negb_false_iff, existsb_exists.
  split; intros (l & Hl & H); exists l; (split; [exact Hl | ]);
    apply listed_at_spec; exact H.
Qed.

(** C4, counterexample.  In the revision at [src/clients/rekognition.ts] a
    single Violence label at confidence 80 rejects the image, although
    Violence is not in the disallowed set of the claim. *)
Lemma legacy_rejects_violence :
  fst (RekognitionClient.scanImageForModeration (calm [label "Violence" 80])
         Legacy sample "image/jpeg" loaded)
    = Returned {| RekognitionClient.passed := false;
                  RekognitionClient.moderationLabels := ["Violence"];
                  RekognitionClient.confidence := inject_Z 80;
                  RekognitionClient.error := None |} /\
  ~ In "Violence" DisallowedSet.
Proof.
  split; [vm_compute; reflexivity | ].
  simpl. intros H. decompose [or] H; try discriminate; contradiction.
Qed.

(** C4, amended.  A verdict either carries an error, and then it fails
    with no labels, or it has been read off a reply of Rekognition's
    moderation-label detection, and then it fails exactly when that reply
    holds a label of the disallowed set (to which the Legacy revision adds
    Violence) at confidence 70 or more.  So in the Hybrid revision a reply
    whose labels are all outside the disallowed set, such as Violence,
    Weapons or Combat at any confidence, passes. *)
Theorem rejection_is_by_disallowed_labels env v b ct w r w' :
  RekognitionClient.scanImageForModeration env v b ct w = (Returned r, w') ->
  (RekognitionClient.error r <> None /\
   RekognitionClient.passed r = false /\
   RekognitionClient.moderationLabels r = []) \/
  (RekognitionClient.error r = None /\
   exists w0 key reply,
     rekognition_detectModerationLabels env w0 key (asked_from v) = inr reply /\
     let labels := match reply with Some ls => ls | None => [] end in
     (RekognitionClient.passed r = false <->
      exists l,
        In l labels /\
        (In (RekognitionClient.name_or_empty l) DisallowedSet \/
         (v = Legacy /\ RekognitionClient.name_or_empty l = "Violence")) /\
        (inject_Z 70 <= RekognitionClient.confidence_or_0 l)%Q) /\
     (v = Hybrid ->
      (forall l, In l labels ->
         In (RekognitionClient.name_or_empty l) ["Violence"; "Weapons"; "Combat"]) ->
      RekognitionClient.passed r = true)).
Proof.
  intros Hrun. apply scan_paths in Hrun.
  destruct Hrun as [(w0 & key & reply & Hreply & -> & _) | (t & -> & _)];
    [right | left; repeat split; discriminate].
  split; [reflexivity | ].
  exists w0, key, reply. split; [exact Hreply | ].
  cbv zeta. split.
  - rewrite verdict_on_fails. split; intros (l & Hl & Hn & Hc); exists l;
      (split; [exact Hl | split; [ | exact Hc]]); apply rejected_spec; exact Hn.
  - intros -> Hall. apply not_false_iff_true. intros Hfail.
    apply verdict_on_fails in Hfail. destruct Hfail as (l & Hl & Hn & _).
    specialize (Hall l Hl). simpl in Hall, Hn.
    decompose [or] Hall; try contradiction;
      match goal with E : _ = RekognitionClient.name_or_empty l |- _ =>
        rewrite <- E in Hn end;
      decompose [or] Hn; try discriminate; contradiction.
Qed.

(** A Hybrid scan of an image labelled Violence at 99 and Drugs at 40. *)
Lemma rejection_is_by_disallowed_labels_witness :
  let env := calm [label "Violence" 99; label "Drugs" 40] in
  let r := {| RekognitionClient.passed := true;
              RekognitionClient.moderationLabels := ["Violence"; "Drugs"];
              RekognitionClient.confidence := inject_Z 99;
              RekognitionClient.error := None |} in
  fst (RekognitionClient.scanImageForModeration env Hybrid sample
         "image/jpeg" loaded) = Returned r /\
  ((RekognitionClient.error r <> None /\
    RekognitionClient.passed r = false /\
    RekognitionClient.moderationLabels r = []) \/
   (RekognitionClient.error r = None /\
    exists w0 key reply,
      rekognition_detectModerationLabels env w0 key 70 = inr reply /\
      let labels := match reply with Some ls => ls | None => [] end in
      (RekognitionClient.passed r = false <->
       exists l,
         In l labels /\
         (In (RekognitionClient.name_or_empty l) DisallowedSet \/
          (Hybrid = Legacy /\ RekognitionClient.name_or_empty l = "Violence")) /\
         (inject_Z 70 <= RekognitionClient.confidence_or_0 l)%Q) /\
      (Hybrid = Hybrid ->
       (forall l, In l labels ->
          In (RekognitionClient.name_or_empty l) ["Violence"; "Weapons"; "Combat"]) ->
       RekognitionClient.passed r = true))).
Proof.
  cbv zeta. split; [vm_compute; reflexivity | ].
  apply (rejection_is_by_disallowed_labels
           (calm [label "Violence" 99; label "Drugs" 40]) Hybrid sample
           "image/jpeg" loaded _
           (snd (RekognitionClient.scanImageForModeration
                   (calm [label "Violence" 99; label "Drugs" 40]) Hybrid
                   sample "image/jpeg" loaded))).
  vm_compute; reflexivity.
Defined.

(** ** The two boundary conversions *)

Section Conversions.

Variable env : Env.

(** A format of [REKOGNITION_COMPATIBLE_FORMATS] passes through: the same
    buffer comes back and nothing is called. *)
Lemma convertToRekognitionCompatible_passthrough b ct w :
  Js.array_includes ImageProcessor.REKOGNITION_COMPATIBLE_FORMATS
    (ImageProcessor.extractFormatFromContentType ct) = true ->
  ImageProcessor.convertToRekognitionCompatible env b ct w
    = (Returned {| ImageProcessor.buffer := b;
                   ImageProcessor.format :=
                     ImageProcessor.extractFormatFromContentType ct;
                   ImageProcessor.converted := false |}, w).
Proof.
  intros H. unfold ImageProcessor.convertToRekognitionCompatible.
  rewrite H. reflexivity.
Qed.

(** Any other format goes through the codec: what comes back is a buffer
    allocated by this call, tagged png, or else the conversion error. *)
Lemma convertToRekognitionCompatible_converts b ct w o w' :
  Js.array_includes ImageProcessor.REKOGNITION_COMPATIBLE_FORMATS
    (ImageProcessor.extractFormatFromContentType ct) = false ->
  ImageProcessor.convertToRekognitionCompatible env b ct w = (o, w') ->
  (exists bytes,
      o = Returned {| ImageProcessor.buffer :=
                        {| buf_id := next_buffer w; buf_bytes := bytes |};
                      ImageProcessor.format := "png";
                      ImageProcessor.converted := true |}) \/
  o = Threw (ImageProcessorError 500 "RekognitionCompatibilityError"
               "Failed to convert image to Rekognition compatible format.").
Proof.
  intros Hf H. unfold ImageProcessor.convertToRekognitionCompatible in H.
  rewrite Hf in H.
  unfold ImageProcessor.convertToPNG, ImageProcessor.instantiateSharpImage,
    ImageProcessor.instantiateSharpImage_catch in H.
  invert_run; solve [left; eexists; reflexivity | right; reflexivity].
Qed.

(** A webp image is already in the storage format. *)
Lemma convertToWebPIfNeeded_webp b ct w :
  ImageProcessor.extractFormatFromContentType ct = "webp" ->
  ImageProcessor.convertToWebPIfNeeded env b ct w
    = (Returned {| ImageProcessor.buffer := b;
                   ImageProcessor.format := "webp";
                   ImageProcessor.converted := false |}, w).
Proof.
  intros H. unfold ImageProcessor.convertToWebPIfNeeded.
  rewrite H. reflexivity.
Qed.

End Conversions.

(** C5.  Declared as image/jpg, a content type the handler accepts and
    that [getMimeType] knows as image/jpeg, a jpeg is not passed through
    as it is under image/jpeg: the codec decodes and re-encodes it, and a
    new buffer tagged png comes back with [converted = true].  A request
    declaring image/jpg is therefore staged for the scan as a png made
    from the image. *)
Theorem jpg_spelling_is_converted :
  ImageProcessor.isSupportedFormat "image/jpg" = true /\
  ImageProcessor.getMimeType "jpg" = ImageProcessor.getMimeType "jpeg" /\
  ImageProcessor.convertToRekognitionCompatible (calm []) sample
    "image/jpeg" loaded
    = (Returned {| ImageProcessor.buffer := sample;
                   ImageProcessor.format := "jpeg";
                   ImageProcessor.converted := false |}, loaded) /\
  ImageProcessor.convertToRekognitionCompatible (calm []) sample
    "image/jpg" loaded
    = (Returned {| ImageProcessor.buffer :=
                     {| buf_id := 1; buf_bytes := [Byte.x89] |};
                   ImageProcessor.format := "png";
                   ImageProcessor.converted := true |},
       {| trace := [EvSharpPng sample ImageProcessor.enhancedOptions scan_png;
                    EvSharpMetadata sample ImageProcessor.enhancedOptions];
          next_buffer := 2 |}) /\
  List.filter
    (fun e => match e with EvS3PutObject _ _ _ => true | _ => false end)
    (trace (snd (Index.handler (calm []) Hybrid
                   (Some (request "/9j/4AAQ" "cover.jpg" (Some "image/jpg")))
                   start)))
    = [EvS3PutObject "temp-moderation/uuid-1700000000000.png"
         {| buf_id := 1; buf_bytes := [Byte.x89] |} "image/png"].
Proof. repeat split; vm_compute; reflexivity. Qed.

(** C6, counterexample.  A webp request whose image passes moderation is
    answered with success, yet the scan-compatibility conversion it went
    through reports [converted = true]: the scan was given a png made
    from the image. *)
Lemma webp_is_converted_for_the_scan :
  fst (Index.handler (calm []) Hybrid
         (Some (request "UklGRg==" "ship.webp" (Some "image/webp"))) start)
    = Returned
        (Index.uploaded "ship.webp" "https://cdn.example/ship.webp" "webp"
           {| Index.passed := true;
              Index.moderationLabels := [];
              Index.confidence := 0%Q |}) /\
  fst (ImageProcessor.convertToRekognitionCompatible (calm [])
         {| buf_id := 0; buf_bytes := base64_decode (calm []) "UklGRg==" |}
         "image/webp" loaded)
    = Returned {| ImageProcessor.buffer :=
                    {| buf_id := 1; buf_bytes := [Byte.x89] |};
                  ImageProcessor.format := "png";
                  ImageProcessor.converted := true |}.
Proof. split; vm_compute; reflexivity. Qed.

(** C6, amended.  For a webp request that gets to the scan and passes it:
    the scan-compatibility conversion did convert (it returned a buffer
    other than the input, tagged png, with [converted = true]); the
    storage-format conversion returns the input buffer with
    [converted = false]; and the one Backblaze [putObject] of the request
    carries the input buffer itself, as image/webp, under the final
    filename. *)
Theorem webp_reaches_storage_unchanged
    env client body w imageBuffer w1 verdict w2 :
  Js.falsy (Index.imageData body) = false ->
  Js.falsy (Index.filename body) = false ->
  ImageProcessor.extractFormatFromContentType
    (Js.or_default (Index.contentType body) "image/jpeg") = "webp" ->
  new_buffer (base64_decode env (Js.or_default (Index.imageData body) "")) w
    = (Returned imageBuffer, w1) ->
  (buf_length imageBuffer >? Index.maxSizeBytes) = false ->
  Index.scanImageForModeration env client imageBuffer
    (Js.or_default (Index.contentType body) "image/jpeg") w1
    = (Returned verdict, w2) ->
  Index.passed verdict = true ->
  let contentType := Js.or_default (Index.contentType body) "image/jpeg" in
  (exists png,
      fst (ImageProcessor.convertToRekognitionCompatible env imageBuffer
             contentType w1)
        = Returned {| ImageProcessor.buffer := png;
                      ImageProcessor.format := "png";
                      ImageProcessor.converted := true |} /\
      buf_id png <> buf_id imageBuffer) /\
  ImageProcessor.convertToWebPIfNeeded env imageBuffer contentType w2
    = (Returned {| ImageProcessor.buffer := imageBuffer;
                   ImageProcessor.format := "webp";
                   ImageProcessor.converted := false |}, w2) /\
  exists evs,
    trace (snd (Index.handler env client (Some body) w))
      = (evs ++
         EvB2PutObject
           (Index.finalFilename_of (Js.or_default (Index.filename body) ""))
           imageBuffer "image/webp"
         :: trace w2)%list /\
    Forall (fun e => is_b2_put e = false) evs.
Proof.
  intros Hdata Hname Hwebp Hbuf Hsize Hscan Hpass. cbv zeta.
  assert (Hformat : ImageProcessor.isSupportedFormat
            (Js.or_default (Index.contentType body) "image/jpeg") = true)
    by (unfold ImageProcessor.isSupportedFormat; rewrite Hwebp; reflexivity).
  split; [ | split].
  - pose proof Hscan as Hconv.
    unfold Index.scanImageForModeration in Hconv.
    apply try_inv in Hconv.
    destruct Hconv as [(? & Hconv & _) | (? & ? & _ & Hconv)];
      [ | apply throw_inv in Hconv; destruct Hconv; discriminate].
    apply bind_inv in Hconv.
    destruct Hconv as [(r & wc & Hconv & _) | (? & _ & ?)]; [ | discriminate].
    pose proof Hconv as Hshape.
    apply convertToRekognitionCompatible_converts in Hshape;
      [ | rewrite Hwebp; reflexivity].
    destruct Hshape as [[bytes Hr] | Hr]; [ | discriminate Hr].
    injection Hr as ->. rewrite Hconv. eexists. split; [reflexivity | ].
    apply new_buffer_inv in Hbuf. destruct Hbuf as [Hb ->].
    injection Hb as Hb. rewrite Hb. simpl. lia.
  - apply convertToWebPIfNeeded_webp. exact Hwebp.
  - rewrite (handler_reaches_scan env client body w imageBuffer w1)
      by assumption.
    unfold try_catch at 1. unfold bind at 1. rewrite Hscan.
    unfold Index.after_scan. rewrite Hpass. cbn [negb].
    unfold Index.uploadImageToBackblaze, try_catch, bind.
    rewrite convertToWebPIfNeeded_webp by exact Hwebp.
    cbn [ImageProcessor.buffer ImageProcessor.format].
    unfold Index.b2_put, call.
    destruct (b2_putObject env w2 _ imageBuffer _) as [t | []]; simpl.
    + exists [EvLog Error "Unexpected error processing image"].
      split; [reflexivity | repeat constructor].
    + exists []. split; [reflexivity | constructor].
Qed.

(** The webp request of the counterexample, with the Hybrid client. *)
Lemma webp_reaches_storage_unchanged_witness :
  let env := calm [] in
  let imageBuffer := {| buf_id := 0; buf_bytes := base64_decode env "UklGRg==" |} in
  let body := request "UklGRg==" "ship.webp" (Some "image/webp") in
  let w2 := snd (Index.scanImageForModeration env Hybrid imageBuffer
                   "image/webp" loaded) in
  (exists png,
      fst (ImageProcessor.convertToRekognitionCompatible env imageBuffer
             "image/webp" loaded)
        = Returned {| ImageProcessor.buffer := png;
                      ImageProcessor.format := "png";
                      ImageProcessor.converted := true |} /\
      buf_id png <> buf_id imageBuffer) /\
  ImageProcessor.convertToWebPIfNeeded env imageBuffer "image/webp" w2
    = (Returned {| ImageProcessor.buffer := imageBuffer;
                   ImageProcessor.format := "webp";
                   ImageProcessor.converted := false |}, w2) /\
  exists evs,
    trace (snd (Index.handler env Hybrid (Some body) start))
      = (evs ++ EvB2PutObject "ship.webp" imageBuffer "image/webp" :: trace w2)%list /\
    Forall (fun e => is_b2_put e = false) evs.
Proof.
  cbv zeta.
  apply (webp_reaches_storage_unchanged (calm []) Hybrid
           (request "UklGRg==" "ship.webp" (Some "image/webp")) start
           {| buf_id := 0; buf_bytes := base64_decode (calm []) "UklGRg==" |}
           loaded
           {| Index.passed := true;
              Index.moderationLabels := [];
              Index.confidence := 0%Q |});
    vm_compute; reflexivity.
Defined.

(** ** Which kind of error a failure becomes *)

Section Classification.

Variable env : Env.

Lemma instantiateSharpImage_catch_kind t w :
  exists status text,
    ImageProcessor.instantiateSharpImage_catch t w
      = (Threw (ImageProcessorError status (decode_kind t) text),
         snd (ImageProcessor.instantiateSharpImage_catch t w)).
Proof.
  unfold ImageProcessor.instantiateSharpImage_catch, decode_kind,
    capacity_signal, dimension_signal, unrecognized_signal.
  destruct (error_message t) as [m | ]; [ | simpl; eauto].
  destruct (Js.includes m "memory"), (Js.includes m "buffer"),
    (Js.includes m "unsupported image format"),
    (Js.includes m "Input buffer contains unsupported image format"),
    (Js.includes m "pixel"), (Js.includes m "dimension");
    simpl; eauto.
Qed.

Lemma webp_catch_kind {A} t w :
  exists status text,
    @ImageProcessor.webp_catch A t w
      = (Threw (ImageProcessorError status (webp_kind t) text),
         snd (@ImageProcessor.webp_catch A t w)).
Proof.
  unfold ImageProcessor.webp_catch, webp_kind, spec_webp_kind,
    memory_signal, timeout_signal.
  destruct t as [name m | status kind m | r]; simpl; eauto.
  destruct (Js.includes m "memory"), (Js.includes m "buffer"),
    (Js.includes m "timeout"), (Js.includes m "timed out");
    simpl; eauto.
Qed.

(** Passing an [ImageProcessorError] through the webp [catch] clause
    changes nothing. *)
Lemma webp_catch_rethrows {A} status kind text w :
  @ImageProcessor.webp_catch A (ImageProcessorError status kind text) w
    = (Threw (ImageProcessorError status kind text), w).
Proof. reflexivity. Qed.

End Classification.

(** C7, counterexample.  The codec's own message for bytes it does not
    recognise contains the word buffer: by the stated priority it would be
    a memory signal, but the code answers InvalidImageFormat.  And when
    the decode step of a webp conversion fails for an unclassified reason,
    the kind is InstantiationError, not WebPConversionError. *)
Lemma unsupported_format_message_is_not_a_memory_signal :
  spec_decode_kind
    (JsError "Error" "Input buffer contains unsupported image format")
    = "MemoryLimitExceeded" /\
  fst (ImageProcessor.instantiateSharpImage
         (unreadable "Input buffer contains unsupported image format")
         sample loaded)
    = Threw (ImageProcessorError 400 "InvalidImageFormat"
               "The provided data is not a valid image format. Please ensure you are uploading a valid image file.") /\
  spec_webp_kind (JsError "Error" "boom") = "WebPConversionError" /\
  fst (ImageProcessor.convertToWebPIfNeeded (unreadable "boom")
         sample "image/png" loaded)
    = Threw (ImageProcessorError 400 "InstantiationError"
               "Input image could not be instantiated. Please choose a valid image.").
Proof. repeat split; vm_compute; reflexivity. Qed.

(** C7, amended.  A failure [t] of the codec while the image is
    instantiated becomes an [ImageProcessorError] whose kind is chosen in
    this order: a memory signal, or a buffer signal in a message without
    the unsupported-format text, gives MemoryLimitExceeded; then a pixel or
    dimension signal gives ImageTooLarge; then the unsupported-format text
    gives InvalidImageFormat; anything else gives InstantiationError.
    During the conversion to webp a failure of the decode step keeps the
    kind so chosen, and a failure [t] of the encode step gives
    MemoryLimitExceeded on a memory or buffer signal, then
    ProcessingTimeout on a timeout signal, and WebPConversionError
    otherwise. *)
Theorem failures_are_classified_in_order env b w :
  (forall t,
     sharp_metadata env w b ImageProcessor.enhancedOptions = inl t ->
     exists status text,
       fst (ImageProcessor.instantiateSharpImage env b w)
         = Threw (ImageProcessorError status (decode_kind t) text)) /\
  (forall failure w1,
     ImageProcessor.instantiateSharpImage env b w = (Threw failure, w1) ->
     exists t status text,
       failure = ImageProcessorError status (decode_kind t) text /\
       (sharp_metadata env w b ImageProcessor.enhancedOptions = inl t \/
        exists metadata,
          sharp_metadata env w b ImageProcessor.enhancedOptions = inr metadata /\
          t = ImageProcessorError 413 "ImageTooLarge"
                (ImageProcessor.dimensions_message metadata))) /\
  (forall ct failure w1,
     ImageProcessor.extractFormatFromContentType ct <> "webp" ->
     ImageProcessor.instantiateSharpImage env b w = (Threw failure, w1) ->
     fst (ImageProcessor.convertToWebPIfNeeded env b ct w) = Threw failure) /\
  (forall ct sharp w1 t,
     ImageProcessor.extractFormatFromContentType ct <> "webp" ->
     ImageProcessor.instantiateSharpImage env b w = (Returned sharp, w1) ->
     sharp_webp env w1 (sharp_input sharp) (sharp_options sharp)
       {| quality := Some 80; effort := None |} = inl t ->
     exists status text,
       fst (ImageProcessor.convertToWebPIfNeeded env b ct w)
         = Threw (ImageProcessorError status (webp_kind t) text)).
Proof.
  split; [ | split; [ | split]].
  - intros t Ht.
    unfold ImageProcessor.instantiateSharpImage, try_catch, bind, call.
    rewrite Ht.
    destruct (instantiateSharpImage_catch_kind t
                (record (EvSharpMetadata b ImageProcessor.enhancedOptions) w))
      as (status & text & E).
    rewrite E. simpl. eauto.
  - intros failure w1 Hinst.
    unfold ImageProcessor.instantiateSharpImage in Hinst.
    apply try_inv in Hinst.
    destruct Hinst as [(? & _ & ?) | (t & w0 & Hbody & Hcatch)]; [discriminate | ].
    destruct (instantiateSharpImage_catch_kind t w0) as (s & x & E).
    rewrite E in Hcatch. injection Hcatch as <- _.
    exists t, s, x. split; [reflexivity | ].
    invert_run; eauto.
  - intros ct failure w1 Hct Hinst.
    assert (exists status kind text,
               failure = ImageProcessorError status kind text)
      as (status & kind & text & ->).
    { unfold ImageProcessor.instantiateSharpImage in Hinst.
      apply try_inv in Hinst.
      destruct Hinst as [(? & _ & ?) | (t & w0 & _ & Hcatch)]; [discriminate | ].
      destruct (instantiateSharpImage_catch_kind t w0) as (s & x & E).
      rewrite E in Hcatch. injection Hcatch as <- _. eauto. }
    unfold ImageProcessor.convertToWebPIfNeeded.
    apply String.eqb_neq in Hct. rewrite Hct.
    unfold ImageProcessor.convertToWebP.
    unfold try_catch, bind. rewrite Hinst. reflexivity.
  - intros ct sharp w1 t Hct Hinst Ht.
    unfold ImageProcessor.convertToWebPIfNeeded.
    apply String.eqb_neq in Hct. rewrite Hct.
    unfold ImageProcessor.convertToWebP.
    unfold try_catch, bind, call. rewrite Hinst. rewrite Ht.
    match goal with
    | |- context [@ImageProcessor.webp_catch ?A t ?w0] =>
        destruct (@webp_catch_kind A t w0) as (status & text & E); rewrite E
    end.
    rewrite webp_catch_rethrows. simpl. eauto.
Qed.

(** The codec reports that it ran out of memory while counting pixels:
    the memory signal wins. *)
Lemma failures_are_classified_in_order_witness :
  exists status text,
    fst (ImageProcessor.instantiateSharpImage
           (unreadable "out of memory while reading pixel data") sample loaded)
      = Threw (ImageProcessorError status "MemoryLimitExceeded" text).
Proof.
  apply (proj1 (failures_are_classified_in_order
                  (unreadable "out of memory while reading pixel data")
                  sample loaded)
           (JsError "Error" "out of memory while reading pixel data")).
  vm_compute; reflexivity.
Defined.

(** ** The compression profile of the storage conversion *)

(** Whatever the image and whatever happens, the only options the storage
    conversion ever hands to the webp encoder are [{ quality: 80 }]. *)
Lemma webp_options_are_fixed env b ct :
  emits (fun e =>
           match e with
           | EvSharpWebp _ _ options =>
               options = {| quality := Some 80; effort := None |}
           | _ => True
           end)
        (ImageProcessor.convertToWebPIfNeeded env b ct).
Proof.
  unfold ImageProcessor.convertToWebPIfNeeded, ImageProcessor.convertToWebP,
    ImageProcessor.instantiateSharpImage,
    ImageProcessor.instantiateSharpImage_catch, ImageProcessor.webp_catch.
  emits_all.
Qed.

(** With a codec that can read the image, the storage conversion of any
    png is these two calls. *)
Lemma storage_conversion_calls b :
  trace (snd (ImageProcessor.convertToWebPIfNeeded (calm []) b "image/png" loaded))
    = [EvSharpWebp b ImageProcessor.enhancedOptions
         {| quality := Some 80; effort := None |};
       EvSharpMetadata b ImageProcessor.enhancedOptions].
Proof. reflexivity. Qed.

(** C8.  The claim is that an input of more than 1 MiB is encoded at
    quality 75 and effort 5.  For a png of 1 MiB + 1 bytes the documented
    profile is indeed 75 / 5, but the encoder is called with quality 80
    and no effort at all, as for every other size. *)
Theorem large_image_is_encoded_at_quality_80 :
  let big := {| buf_id := 0;
                buf_bytes := List.repeat Byte.x00 (Z.to_nat (1024 * 1024 + 1)) |} in
  buf_length big = 1024 * 1024 + 1 /\
  documented_webpOptions big = {| quality := Some 75; effort := Some 5 |} /\
  trace (snd (ImageProcessor.convertToWebPIfNeeded (calm []) big "image/png" loaded))
    = [EvSharpWebp big ImageProcessor.enhancedOptions
         {| quality := Some 80; effort := None |};
       EvSharpMetadata big ImageProcessor.enhancedOptions].
Proof.
  intros big.
  assert (Hlen : buf_length big = 1024 * 1024 + 1).
  { unfold buf_length, big. cbn [buf_bytes].
    rewrite List.repeat_length. apply Z2Nat.id. lia. }
  split; [exact Hlen | split].
  - unfold documented_webpOptions. rewrite Hlen. reflexivity.
  - apply storage_conversion_calls.
Qed.

(** ** The published filename *)

Lemma all_chars_dot s t :
  Js.all_chars Js.not_slash_or_dot (String.append s (String "." t)) = false.
Proof.
  induction s as [ | c s IH]; simpl.
  - reflexivity.
  - rewrite IH. apply andb_false_r.
Qed.

(** A name made of a stem, a dot and an extension without dot or slash
    gets the extension replaced. *)
Lemma replace_extension_stem stem ext rep :
  ext <> "" ->
  Js.all_chars Js.not_slash_or_dot ext = true ->
  Js.replace_extension (String.append stem (String "." ext)) rep
    = String.append stem rep.
Proof.
  intros Hne Hext. induction stem as [ | c stem IH].
  - destruct ext as [ | d ext]; [contradiction | ].
    change (String.append "" (String "." (String d ext)))
      with (String "." (String d ext)).
    change (String.append "" rep) with rep.
    change (Js.replace_extension (String "." (String d ext)) rep)
      with (if Js.matches_extension_here (String "." (String d ext))
            then rep
            else String "." (Js.replace_extension (String d ext) rep)).
    unfold Js.matches_extension_here. rewrite Hext. reflexivity.
  - change (String.append (String c stem) (String "." ext))
      with (String c (String.append stem (String "." ext))).
    change (String.append (String c stem) rep)
      with (String c (String.append stem rep)).
    assert (Hno : Js.matches_extension_here
                    (String c (String.append stem (String "." ext))) = false).
    { unfold Js.matches_extension_here.
      destruct (String.append stem (String "." ext)) as [ | d rest] eqn:E;
        [reflexivity | ].
      rewrite <- E, all_chars_dot. apply andb_false_r. }
    change (Js.replace_extension
              (String c (String.append stem (String "." ext))) rep)
      with (if Js.matches_extension_here
                 (String c (String.append stem (String "." ext)))
            then rep
            else String c (Js.replace_extension
                             (String.append stem (String "." ext)) rep)).
    rewrite Hno, IH. reflexivity.
Qed.

(** A name in which the pattern matches nowhere is left as it is. *)
Lemma replace_extension_none s rep :
  has_extension s = false -> Js.replace_extension s rep = s.
Proof.
  induction s as [ | c s IH]; intros H.
  - reflexivity.
  - change (has_extension (String c s))
      with (Js.matches_extension_here (String c s) || has_extension s) in H.
    apply orb_false_iff in H. destruct H as [Hhere Hrest].
    change (Js.replace_extension (String c s) rep)
      with (if Js.matches_extension_here (String c s)
            then rep else String c (Js.replace_extension s rep)).
    rewrite Hhere, (IH Hrest). reflexivity.
Qed.

Section Publishing.

Variable env : Env.
Variable client : Variant.

(** Every Backblaze [putObject] of a request is made under the final
    filename computed from the request's [filename]. *)
Lemma handler_publishes_under_final_filename body :
  emits (fun e =>
           forall key b ct,
             e = EvB2PutObject key b ct ->
             key = Index.finalFilename_of
                     (Js.or_default (Index.filename body) ""))
        (Index.handler env client (Some body)).
Proof.
  set (Q := fun e : Event => _).
  assert (Hint : forall e, internal e -> Q e).
  { intros e He key b ct ->. discriminate He. }
  assert (Hscan : forall b ct,
             emits Q (Index.scanImageForModeration env client b ct)).
  { intros. eapply emits_weaken; [exact Hint | ].
    apply scanImageForModeration_internal. }
  assert (Hconv : forall b ct,
             emits Q (ImageProcessor.convertToWebPIfNeeded env b ct)).
  { intros. eapply emits_weaken; [exact Hint | ].
    apply convertToWebPIfNeeded_internal. }
  unfold Index.handler, Index.handler_try, Index.after_scan,
    Index.uploadImageToBackblaze, Index.b2_put.
  subst Q. emits_all.
Qed.

End Publishing.

(** C9, counterexample.  A request whose filename has no extension is
    published under that very name, which does not end in .webp. *)
Lemma filename_without_extension_is_kept :
  In (EvB2PutObject "photo"
        {| buf_id := 1; buf_bytes := [Byte.x52] |} "image/webp")
     (trace (snd (Index.handler (calm []) Hybrid
                    (Some (request "iVBORw==" "photo" (Some "image/png")))
                    start))) /\
  In (EvB2PutObject "photo"
        {| buf_id := 1; buf_bytes := [Byte.x52] |} "image/webp")
     (trace (snd (Index.handler (calm []) Legacy
                    (Some (request "iVBORw==" "photo" (Some "image/png")))
                    start))) /\
  Js.endsWith "photo" ".webp" = false.
Proof. repeat split; vm_compute; auto 20. Qed.

(** C9, amended.  The object is always published under the request's
    filename after the replacement of its extension.  When the filename is
    a stem, a dot and a non-empty extension without dot or slash, that is
    the stem followed by .webp; when the filename has no such extension it
    is the filename unchanged. *)
Theorem published_filename env client body w :
  (exists evs,
      trace (snd (Index.handler env client (Some body) w))
        = (evs ++ trace w)%list /\
      Forall (fun e =>
                forall key b ct,
                  e = EvB2PutObject key b ct ->
                  key = Index.finalFilename_of
                          (Js.or_default (Index.filename body) ""))
             evs) /\
  (forall stem ext,
      ext <> "" ->
      Js.all_chars Js.not_slash_or_dot ext = true ->
      Index.finalFilename_of (String.append stem (String "." ext))
        = String.append stem ".webp") /\
  (forall name,
      has_extension name = false -> Index.finalFilename_of name = name).
Proof.
  split; [ | split].
  - destruct (handler_publishes_under_final_filename env client body w)
      as (evs & Htrace & Hall & _).
    exists evs. split; assumption.
  - intros stem ext Hne Hext. apply replace_extension_stem; assumption.
  - intros name Hnone. apply replace_extension_none, Hnone.
Qed.

(** [archive.tar.gz] is published as [archive.tar.webp]. *)
Lemma published_filename_witness :
  Index.finalFilename_of "archive.tar.gz" = "archive.tar.webp".
Proof.
  apply (proj1 (proj2 (published_filename (calm []) Hybrid
                         (request "" "" None) start))
           "archive.tar" "gz").
  - discriminate.
  - reflexivity.
Defined.

(** ** An omitted content type *)

Section Responses.

Variable env : Env.
Variable client : Variant.

(** The handler always answers, and what it answers when the declared
    content type is supported is one of these. *)
Lemma handler_answers_supported body w :
  ImageProcessor.isSupportedFormat
    (Js.or_default (Index.contentType body) "image/jpeg") = true ->
  exists response,
    fst (Index.handler env client (Some body) w) = Returned response /\
    (response = Index.validation_error /\
       Js.falsy (Index.imageData body) || Js.falsy (Index.filename body) = true
     \/ (exists sizeMB size, response = Index.file_too_large sizeMB size)
     \/ (exists verdict, response = Index.moderation_failed verdict)
     \/ (exists name url tag verdict,
           response = Index.uploaded name url tag verdict)
     \/ response = Index.internal_error).
Proof.
  intros Hformat.
  destruct (Index.handler env client (Some body) w) as [o w'] eqn:Hrun.
  unfold Index.handler, Index.handler_try in Hrun. rewrite Hformat in Hrun.
  cbn [negb] in Hrun. unfold Index.after_scan in Hrun.
  destruct (Js.falsy (Index.imageData body) || Js.falsy (Index.filename body))
    eqn:Hmissing;
    invert_run; simpl; eexists; (split; [reflexivity | ]); eauto 12.
Qed.

End Responses.

(** The Legacy revision converts nothing declared as image/jpeg or
    image/png. *)
Lemma legacy_skips_conversion ct :
  ct = "image/jpeg" \/ ct = "image/png" ->
  negb (String.eqb ct "image/jpeg") && negb (String.eqb ct "image/png") = false.
Proof. intros [-> | ->]; reflexivity. Qed.

Lemma endsWith_append a t s :
  Js.endsWith t s = true -> Js.endsWith (String.append a t) s = true.
Proof.
  intros H. induction a as [ | c a IH]; [exact H | ].
  change (String.append (String c a) t) with (String c (String.append a t)).
  simpl. rewrite IH. apply orb_true_r.
Qed.

Lemma bind_grows_from {A B} P (m : M A) (k : A -> M B) w0 w :
  grows P w0 (snd (m w)) -> (forall a, emits P (k a)) ->
  grows P w0 (snd (bind m k w)).
Proof.
  intros Hm Hk. unfold bind.
  destruct (m w) as [[a | t] w']; simpl in Hm |- *; [ | exact Hm].
  eapply grows_trans; [exact Hm | apply Hk].
Qed.

Lemma try_grows_from {A} P (m : M A) (h : Thrown -> M A) w0 w :
  grows P w0 (snd (m w)) -> (forall t, emits P (h t)) ->
  grows P w0 (snd (try_catch m h w)).
Proof.
  intros Hm Hh. unfold try_catch.
  destruct (m w) as [[a | t] w']; simpl in Hm |- *; [exact Hm | ].
  eapply grows_trans; [exact Hm | apply Hh].
Qed.

(** A call at the head of a [try] block is recorded whatever follows. *)
Lemma grows_after_call_in_try {R A} P e (answer : World -> Thrown + R)
    (k : R -> M A) (h : Thrown -> M A) w :
  (forall r, emits P (k r)) -> (forall t, emits P (h t)) ->
  grows P (record e w) (snd (try_catch (bind (call e answer) k) h w)).
Proof.
  intros Hk Hh. unfold try_catch, bind, call.
  destruct (answer w) as [t | r]; [apply Hh | ].
  specialize (Hk r (record e w)).
  destruct (k r (record e w)) as [[a | t] w']; simpl in Hk |- *; [exact Hk | ].
  eapply grows_trans; [exact Hk | apply Hh].
Qed.

Section Staging.

Variable env : Env.

(** A scan that stages its input as given starts by logging and then
    puts the buffer it was given, under the content type it was given. *)
Lemma scan_stages_first v b ct w :
  staged_as_given v ct ->
  let started := record (EvLog Info "Starting content moderation scan") w in
  let key := RekognitionClient.tempKey_of (uuidv4 env started)
               (date_now env started) ct in
  grows any_event (record (EvS3PutObject key b ct) started)
    (snd (RekognitionClient.scanImageForModeration env v b ct w)).
Proof.
  intros Hgiven started key.
  destruct v; simpl.
  - destruct Hgiven as [Hv | Hct]; [discriminate Hv | ].
    unfold RekognitionClient.legacy_scanImageForModeration.
    rewrite (legacy_skips_conversion ct Hct).
    unfold RekognitionClient.make_tempKey, RekognitionClient.s3_put.
    apply grows_after_call_in_try.
    + intros r. unfold RekognitionClient.scan_catch, RekognitionClient.s3_delete.
      emits_all.
    + intros t. unfold RekognitionClient.scan_catch, RekognitionClient.s3_delete.
      emits_all.
  - unfold RekognitionClient.hybrid_scanImageForModeration.
    unfold RekognitionClient.make_tempKey, RekognitionClient.s3_put.
    apply grows_after_call_in_try.
    + intros r. unfold RekognitionClient.scan_catch, RekognitionClient.s3_delete.
      emits_all.
    + intros t. unfold RekognitionClient.scan_catch, RekognitionClient.s3_delete.
      emits_all.
Qed.

End Staging.

Section OmittedType.

Variable env : Env.
Variable client : Variant.

Lemma after_scan_any name b ct verdict :
  emits any_event (Index.after_scan env name b ct verdict).
Proof.
  unfold Index.after_scan, Index.uploadImageToBackblaze, Index.b2_put.
  unfold ImageProcessor.convertToWebPIfNeeded, ImageProcessor.convertToWebP,
    ImageProcessor.instantiateSharpImage,
    ImageProcessor.instantiateSharpImage_catch, ImageProcessor.webp_catch.
  emits_all.
Qed.

(** The scan stage run on a jpeg declared as image/jpeg: the first thing
    recorded after the opening log line is the staging of the buffer
    itself as image/jpeg. *)
Lemma module_scan_of_jpeg_stages_first b w :
  let started := record (EvLog Info "Starting content moderation scan") w in
  let key := RekognitionClient.tempKey_of (uuidv4 env started)
               (date_now env started) "image/jpeg" in
  grows any_event (record (EvS3PutObject key b "image/jpeg") started)
    (snd (Index.scanImageForModeration env client b "image/jpeg" w)).
Proof.
  intros started key. unfold Index.scanImageForModeration.
  apply try_grows_from; [ | intros t; apply emits_throw].
  change (ImageProcessor.convertToRekognitionCompatible env b "image/jpeg")
    with (@ret ImageProcessor.Conversion
            {| ImageProcessor.buffer := b;
               ImageProcessor.format := "jpeg";
               ImageProcessor.converted := false |}).
  match goal with
  | |- context [bind (ret ?a) ?k] => change (bind (ret a) k) with (k a)
  end.
  cbn [ImageProcessor.buffer ImageProcessor.format].
  change (ImageProcessor.getMimeType "jpeg") with "image/jpeg".
  apply bind_grows_from; [ | intros r; apply emits_ret].
  apply (scan_stages_first env client b "image/jpeg" w).
  right; left; reflexivity.
Qed.

End OmittedType.

(** C10.  A request without [contentType] is handled exactly as the same
    request declaring image/jpeg.  The handler answers it and the answer
    is never UNSUPPORTED_FORMAT.  When [imageData] and [filename] are
    there, the answer is not VALIDATION_ERROR either, and an image within
    the size limit is processed as a jpeg: the decoded buffer goes through
    the scan stage and what follows it under image/jpeg, so the first
    thing the request does after the opening log line is to stage the
    decoded buffer itself, as image/jpeg, under a key ending in .jpg; and
    a 200 response reports the original format jpeg. *)
Theorem omitted_content_type_is_jpeg env client body w :
  Index.contentType body = None ->
  let run := Index.handler env client (Some body) w in
  run = Index.handler env client
          (Some (with_contentType body (Some "image/jpeg"))) w /\
  exists response,
    fst run = Returned response /\
    Index.error (Index.body response) <> Some "UNSUPPORTED_FORMAT" /\
    (Js.falsy (Index.imageData body) = false ->
     Js.falsy (Index.filename body) = false ->
     Index.error (Index.body response) <> Some "VALIDATION_ERROR" /\
     let imageBuffer :=
       {| buf_id := next_buffer w;
          buf_bytes :=
            base64_decode env (Js.or_default (Index.imageData body) "") |} in
     let decoded := {| trace := trace w; next_buffer := S (next_buffer w) |} in
     let started :=
       record (EvLog Info "Starting content moderation scan") decoded in
     let key := RekognitionClient.tempKey_of (uuidv4 env started)
                  (date_now env started) "image/jpeg" in
     (buf_length imageBuffer <= Index.maxSizeBytes ->
      run = try_catch
              (moderationResult <-
                 Index.scanImageForModeration env client imageBuffer
                   "image/jpeg" ;;
               Index.after_scan env (Js.or_default (Index.filename body) "")
                 imageBuffer "image/jpeg" moderationResult)
              (fun error =>
                 log Error "Unexpected error processing image" ;;;
                 ret Index.internal_error)
              decoded /\
      (exists later,
          trace (snd run)
            = (later ++ EvS3PutObject key imageBuffer "image/jpeg"
                 :: EvLog Info "Starting content moderation scan"
                 :: trace w)%list) /\
      Js.endsWith key ".jpg" = true /\
      (Index.statusCode response = 200 ->
       exists name url verdict,
         response = Index.uploaded name url "jpeg" verdict))).
Proof.
  intros Hnone run.
  assert (Hsame : run = Index.handler env client
                          (Some (with_contentType body (Some "image/jpeg"))) w).
  { unfold run, Index.handler, Index.handler_try, with_contentType.
    cbn [Index.imageData Index.filename Index.contentType].
    rewrite Hnone. reflexivity. }
  split; [exact Hsame | ].
  destruct (handler_answers_supported env client body w)
    as (response & Hrun & Hshape).
  { rewrite Hnone. reflexivity. }
  exists response. split; [exact Hrun | ].
  split.
  { destruct Hshape
      as [[-> Hmissing]
         | [(? & ? & ->) | [(? & ->) | [(? & ? & ? & ? & ->) | ->]]]];
      simpl; discriminate. }
  intros Hdata Hname. split.
  { destruct Hshape
      as [[-> Hmissing]
         | [(? & ? & ->) | [(? & ->) | [(? & ? & ? & ? & ->) | ->]]]];
      simpl; try discriminate.
    rewrite Hdata, Hname in Hmissing. discriminate Hmissing. }
  intros imageBuffer decoded started key Hsize.
  assert (Hreach :
    run = try_catch
            (moderationResult <-
               Index.scanImageForModeration env client imageBuffer
                 "image/jpeg" ;;
             Index.after_scan env (Js.or_default (Index.filename body) "")
               imageBuffer "image/jpeg" moderationResult)
            (fun error =>
               log Error "Unexpected error processing image" ;;;
               ret Index.internal_error)
            decoded).
  { pose proof (handler_reaches_scan env client body w imageBuffer decoded)
      as H.
    rewrite Hnone in H. apply H; try assumption; try reflexivity.
    rewrite Z.gtb_ltb. apply Z.ltb_ge, Hsize. }
  split; [exact Hreach | ].
  split; [ | split].
  - assert (Hgrows :
      grows any_event
        (record (EvS3PutObject key imageBuffer "image/jpeg") started)
        (snd run)).
    { rewrite Hreach.
      apply try_grows_from;
        [ | intros t; apply emits_bind;
            [apply emits_log; exact I | intros ?; apply emits_ret]].
      apply bind_grows_from; [ | intros verdict; apply after_scan_any].
      apply module_scan_of_jpeg_stages_first. }
    destruct Hgrows as (later & Htrace & _).
    exists later. exact Htrace.
  - unfold key, RekognitionClient.tempKey_of.
    do 4 apply endsWith_append. reflexivity.
  - intros Hok. change (fst run = Returned response) in Hrun.
    rewrite Hreach in Hrun. clear Hreach Hsame Hshape.
    match type of Hrun with
    | fst ?t = _ => destruct t as [o w'] eqn:Hscan
    end.
    simpl in Hrun. subst o. unfold Index.after_scan in Hscan.
    invert_run; simpl in Hok; try discriminate Hok.
    eexists _, _, _. reflexivity.
Qed.

(** A jpeg sent without a content type is staged as image/jpeg, accepted
    and stored. *)
Lemma omitted_content_type_is_jpeg_witness :
  exists later,
    trace (snd (Index.handler (calm []) Hybrid
                  (Some (request "/9j/4AAQ" "cover.jpeg" None)) start))
      = (later
           ++ EvS3PutObject "temp-moderation/uuid-1700000000000.jpg"
                {| buf_id := 0;
                   buf_bytes := base64_decode (calm []) "/9j/4AAQ" |}
                "image/jpeg"
           :: EvLog Info "Starting content moderation scan"
           :: [])%list.
Proof.
  destruct (omitted_content_type_is_jpeg (calm []) Hybrid
              (request "/9j/4AAQ" "cover.jpeg" None) start eq_refl)
    as (_ & response & _ & _ & H).
  destruct (H eq_refl eq_refl) as (_ & Hjpeg).
  apply Hjpeg. vm_compute. discriminate.
Defined.

(** ** What the handler can answer *)

Section Answers.

Variable env : Env.
Variable client : Variant.

(** Every run of [handler] ends in one of its six responses; none throws. *)
Lemma handler_answers event w :
  exists response,
    fst (Index.handler env client event w) = Returned response /\
    (response = Index.validation_error
     \/ (exists ct, response = Index.unsupported_format ct)
     \/ (exists sizeMB size, response = Index.file_too_large sizeMB size)
     \/ (exists verdict, response = Index.moderation_failed verdict)
     \/ (exists name url tag verdict,
           response = Index.uploaded name url tag verdict)
     \/ response = Index.internal_error).
Proof.
  destruct (Index.handler env client event w) as [o w'] eqn:Hrun.
  unfold Index.handler, Index.handler_try, Index.after_scan in Hrun.
  destruct event as [body | ];
    [destruct (Js.falsy (Index.imageData body) || Js.falsy (Index.filename body));
     destruct (ImageProcessor.isSupportedFormat
                 (Js.or_default (Index.contentType body) "image/jpeg")) | ];
    cbn [negb] in Hrun;
    invert_run; simpl; eexists; (split; [reflexivity | ]); eauto 12.
Qed.

End Answers.

(** X1.  [handler] never throws: whatever the request and whatever the
    collaborators do, it returns a response whose status is 200, 400 or
    500, and the response says [success] exactly when the status is 200,
    which is exactly when it names no error. *)
Theorem handler_always_answers env client event w :
  exists response,
    fst (Index.handler env client event w) = Returned response /\
    (Index.statusCode response = 200 \/
     Index.statusCode response = 400 \/
     Index.statusCode response = 500) /\
    (Index.success (Index.body response) = true <->
     Index.statusCode response = 200) /\
    (Index.error (Index.body response) = None <->
     Index.statusCode response = 200).
Proof.
  destruct (handler_answers env client event w) as (response & Hrun & Hshape).
  exists response. split; [exact Hrun | ].
  destruct Hshape
    as [-> | [(? & ->) | [(? & ? & ->) | [(? & ->)
       | [(? & ? & ? & ? & ->) | ->]]]]];
    simpl; repeat split; auto; intros; discriminate.
Qed.

(** X2.  The two cheapest checks come first and touch nothing.  A request
    without [imageData] or without [filename] is answered VALIDATION_ERROR
    whatever its content type; otherwise a content type outside the
    supported formats is answered UNSUPPORTED_FORMAT.  Either way the
    request leaves one debug line in the log: no buffer is decoded and no
    collaborator is called. *)
Theorem cheap_checks_call_nothing env client body w :
  let contentType := Js.or_default (Index.contentType body) "image/jpeg" in
  (Js.falsy (Index.imageData body) || Js.falsy (Index.filename body) = true ->
   Index.handler env client (Some body) w
     = (Returned Index.validation_error,
        record (EvLog Debug "Missing required fields in request") w)) /\
  (Js.falsy (Index.imageData body) || Js.falsy (Index.filename body) = false ->
   ImageProcessor.isSupportedFormat contentType = false ->
   Index.handler env client (Some body) w
     = (Returned (Index.unsupported_format contentType),
        record (EvLog Debug "Unsupported image format") w)).
Proof.
  cbv zeta. split.
  - intros H. unfold Index.handler, Index.handler_try. rewrite H. reflexivity.
  - intros H Hf. unfold Index.handler, Index.handler_try.
    rewrite H, Hf. reflexivity.
Qed.

(** A gif without a filename, and a gif with one. *)
Lemma cheap_checks_call_nothing_witness :
  Index.handler (calm []) Hybrid
    (Some {| Index.imageData := Some "R0lGODlh";
             Index.filename := None;
             Index.contentType := Some "image/gif" |}) start
    = (Returned Index.validation_error,
       record (EvLog Debug "Missing required fields in request") start) /\
  Index.handler (calm []) Hybrid
    (Some (request "R0lGODlh" "anim.gif" (Some "image/gif"))) start
    = (Returned (Index.unsupported_format "image/gif"),
       record (EvLog Debug "Unsupported image format") start).
Proof.
  split.
  - apply (proj1 (cheap_checks_call_nothing (calm []) Hybrid
                    {| Index.imageData := Some "R0lGODlh";
                       Index.filename := None;
                       Index.contentType := Some "image/gif" |} start)).
    reflexivity.
  - apply (proj2 (cheap_checks_call_nothing (calm []) Hybrid
                    (request "R0lGODlh" "anim.gif" (Some "image/gif")) start));
      reflexivity.
Defined.

(** X3.  The size limit is 2 MiB, inclusive.  For a request with both
    fields and a supported content type: when the decoded image has more
    than 2097152 bytes the answer is FILE_TOO_LARGE, carrying the size and
    the limit, and nothing has been called; when it has at most 2097152
    bytes the answer is never FILE_TOO_LARGE. *)
Theorem size_limit_is_two_mebibytes env client body w :
  Js.falsy (Index.imageData body) || Js.falsy (Index.filename body) = false ->
  ImageProcessor.isSupportedFormat
    (Js.or_default (Index.contentType body) "image/jpeg") = true ->
  let size :=
    Z.of_nat (List.length
                (base64_decode env (Js.or_default (Index.imageData body) ""))) in
  (2097152 < size ->
   Index.handler env client (Some body) w
     = (Returned
          {| Index.statusCode := 400;
             Index.body :=
               {| Index.success := false;
                  Index.message :=
                    String.append "Image file size too large: "
                      (String.append (toFixed2_MB env size)
                         "MB. Maximum allowed size is 2MB.");
                  Index.data :=
                    Some (Index.FileTooLargeData size 2097152
                            (toFixed2_MB env size));
                  Index.error := Some "FILE_TOO_LARGE" |} |},
        record (EvLog Debug "Image file size too large")
          {| trace := trace w; next_buffer := S (next_buffer w) |})) /\
  (size <= 2097152 ->
   exists response,
     fst (Index.handler env client (Some body) w) = Returned response /\
     Index.error (Index.body response) <> Some "FILE_TOO_LARGE").
Proof.
  intros Hfields Hformat size. split.
  - intros Hbig. unfold Index.handler, Index.handler_try.
    rewrite Hfields, Hformat. cbn [negb].
    unfold try_catch, bind, new_buffer. unfold buf_length. cbn [buf_bytes].
    fold size.
    replace (size >? Index.maxSizeBytes) with true
      by (symmetry; apply Z.gtb_lt; unfold Index.maxSizeBytes; lia).
    reflexivity.
  - intros Hsmall.
    apply orb_false_iff in Hfields. destruct Hfields as [Hdata Hname].
    destruct (Index.handler env client (Some body) w) as [o w'] eqn:Hrun.
    rewrite (handler_reaches_scan env client body w
               {| buf_id := next_buffer w;
                  buf_bytes := base64_decode env
                                 (Js.or_default (Index.imageData body) "") |}
               {| trace := trace w; next_buffer := S (next_buffer w) |})
      in Hrun; try assumption; try reflexivity.
    + unfold Index.after_scan in Hrun.
      invert_run; simpl; eexists;
        (split; [reflexivity | simpl; discriminate]).
    + unfold buf_length. cbn [buf_bytes]. fold size.
      destruct (size >? Index.maxSizeBytes) eqn:E; [ | reflexivity].
      apply Z.gtb_lt in E. unfold Index.maxSizeBytes in E. lia.
Qed.

(** Four bytes are well under the limit. *)
Lemma size_limit_is_two_mebibytes_witness :
  exists response,
    fst (Index.handler (calm []) Hybrid
           (Some (request "abcd" "tiny.png" (Some "image/png"))) start)
      = Returned response /\
    Index.error (Index.body response) <> Some "FILE_TOO_LARGE".
Proof.
  apply (proj2 (size_limit_is_two_mebibytes (calm []) Hybrid
                  (request "abcd" "tiny.png" (Some "image/png")) start
                  eq_refl eq_refl)).
  vm_compute. discriminate.
Defined.

(** ** The declared content type *)

Lemma lower_char_idempotent c : Js.lower_char (Js.lower_char c) = Js.lower_char c.
Proof. destruct c as [[] [] [] [] [] [] [] []]; reflexivity. Qed.

Lemma toLowerCase_idempotent s :
  Js.toLowerCase (Js.toLowerCase s) = Js.toLowerCase s.
Proof.
  induction s as [ | c s IH]; [reflexivity | ].
  change (Js.toLowerCase (String c s))
    with (String (Js.lower_char c) (Js.toLowerCase s)).
  change (Js.toLowerCase (String (Js.lower_char c) (Js.toLowerCase s)))
    with (String (Js.lower_char (Js.lower_char c))
            (Js.toLowerCase (Js.toLowerCase s))).
  rewrite lower_char_idempotent, IH. reflexivity.
Qed.

Lemma extractFormat_ignores_case ct :
  ImageProcessor.extractFormatFromContentType (Js.toLowerCase ct)
    = ImageProcessor.extractFormatFromContentType ct.
Proof.
  unfold ImageProcessor.extractFormatFromContentType.
  rewrite toLowerCase_idempotent. reflexivity.
Qed.

Section SameTag.

Variable env : Env.
Variable client : Variant.

(** The stages read the declared content type through its format tag
    only. *)
Lemma stages_read_the_tag ct ct' b name :
  ImageProcessor.extractFormatFromContentType ct
    = ImageProcessor.extractFormatFromContentType ct' ->
  Index.scanImageForModeration env client b ct
    = Index.scanImageForModeration env client b ct' /\
  Index.uploadImageToBackblaze env b name ct
    = Index.uploadImageToBackblaze env b name ct'.
Proof.
  intros H.
  unfold Index.scanImageForModeration, Index.uploadImageToBackblaze,
    ImageProcessor.convertToRekognitionCompatible,
    ImageProcessor.convertToWebPIfNeeded.
  rewrite H. split; reflexivity.
Qed.

End SameTag.

(** X4.  Once a request is accepted, its declared content type matters
    only through its format tag: two requests that differ in content type
    but have the same tag (IMAGE/PNG, image/png, png) are handled
    identically, call for call and answer for answer. *)
Theorem same_tag_same_handling env client body ct ct' w :
  ct <> "" -> ct' <> "" ->
  ImageProcessor.extractFormatFromContentType ct
    = ImageProcessor.extractFormatFromContentType ct' ->
  ImageProcessor.isSupportedFormat ct = true ->
  Index.handler env client (Some (with_contentType body (Some ct))) w
    = Index.handler env client (Some (with_contentType body (Some ct'))) w.
Proof.
  intros Hne Hne' Htag Hsup.
  assert (Hsup' : ImageProcessor.isSupportedFormat ct' = true)
    by (unfold ImageProcessor.isSupportedFormat in *; rewrite <- Htag; exact Hsup).
  unfold Index.handler, Index.handler_try, with_contentType, Index.after_scan.
  cbn [Index.imageData Index.filename Index.contentType Js.or_default].
  apply String.eqb_neq in Hne, Hne'. rewrite Hne, Hne', Hsup, Hsup'.
  cbn [negb].
  destruct (Js.falsy (Index.imageData body) || Js.falsy (Index.filename body));
    [reflexivity | ].
  unfold try_catch, bind.
  destruct (new_buffer _ w) as [[b | t] w1]; [ | reflexivity].
  destruct (buf_length b >? Index.maxSizeBytes); [reflexivity | ].
  destruct (stages_read_the_tag env client ct ct' b
              (Index.finalFilename_of (Js.or_default (Index.filename body) ""))
              Htag) as [-> ->].
  rewrite Htag. reflexivity.
Qed.

(** The same png declared in capitals and by its bare tag. *)
Lemma same_tag_same_handling_witness :
  Index.handler (calm []) Hybrid
    (Some (with_contentType (request "iVBORw==" "a.png" None) (Some "IMAGE/PNG")))
    start
  = Index.handler (calm []) Hybrid
      (Some (with_contentType (request "iVBORw==" "a.png" None) (Some "png")))
      start.
Proof.
  apply (same_tag_same_handling (calm []) Hybrid
           (request "iVBORw==" "a.png" None) "IMAGE/PNG" "png" start);
    solve [discriminate | reflexivity].
Defined.

(** The mime type of a tag is one of three.  Here and below the tag is
    not the name of a member that [formatMap] inherits. *)
Lemma getMimeType_range tag :
  Js.array_includes Js.Object_prototype_names tag = false ->
  ImageProcessor.getMimeType tag = "image/webp" /\ tag = "webp" \/
  ImageProcessor.getMimeType tag = "image/png" /\ tag = "png" \/
  ImageProcessor.getMimeType tag = "image/jpeg" /\ tag <> "webp" /\ tag <> "png".
Proof.
  intros _.
  unfold ImageProcessor.getMimeType, ImageProcessor.formatMap.
  destruct (decide (tag = "webp")) as [-> | Hw]; [left; split; reflexivity | ].
  destruct (decide (tag = "png")) as [-> | Hp];
    [right; left; split; reflexivity | ].
  right; right. split; [ | split; assumption].
  rewrite lookup_insert_ne by congruence.
  destruct (decide (tag = "jpg")) as [-> | Hj]; [reflexivity | ].
  rewrite lookup_insert_ne by congruence.
  destruct (decide (tag = "jpeg")) as [-> | Hje]; [reflexivity | ].
  rewrite lookup_insert_ne by congruence.
  rewrite lookup_insert_ne by congruence.
  rewrite lookup_empty. reflexivity.
Qed.

(** X5.  For every tag that is not the name of a member inherited from
    [Object.prototype], [getMimeType] produces image/webp, image/png or
    image/jpeg, the last one for every tag it does not know as well as for
    jpg and jpeg.  Each of these results is a content type the handler
    accepts, and taking the tag of a result and asking for its mime type
    again gives the result back. *)
Theorem getMimeType_is_closed tag :
  Js.array_includes Js.Object_prototype_names tag = false ->
  In (ImageProcessor.getMimeType tag) ["image/webp"; "image/png"; "image/jpeg"] /\
  (tag <> "webp" -> tag <> "png" ->
   ImageProcessor.getMimeType tag = "image/jpeg") /\
  ImageProcessor.isSupportedFormat (ImageProcessor.getMimeType tag) = true /\
  ImageProcessor.getMimeType
    (ImageProcessor.extractFormatFromContentType (ImageProcessor.getMimeType tag))
    = ImageProcessor.getMimeType tag.
Proof.
  intros Hown.
  destruct (getMimeType_range tag Hown)
    as [[E ->] | [[E ->] | (E & Hw & Hp)]]; rewrite E;
    (split; [simpl; auto | split; [ | split; reflexivity]]);
    intros; congruence.
Qed.

(** ** What the calls of a request look like *)

(** [bind] when the first step promises something about what it returns. *)
Lemma emits_bind_post {A B} (P : Event -> Prop) (Q : A -> Prop)
    (m : M A) (k : A -> M B) :
  (forall w a w', m w = (Returned a, w') -> Q a) ->
  emits P m -> (forall a, Q a -> emits P (k a)) -> emits P (bind m k).
Proof.
  intros Hpost Hm Hk w. unfold bind. specialize (Hm w).
  destruct (m w) as [[a | t] w'] eqn:E; simpl in Hm; [ | exact Hm].
  eapply grows_trans; [exact Hm | apply Hk]. eapply Hpost. exact E.
Qed.

(** As [emits_step], with the tactic that shows that an event is allowed
    as a parameter. *)
Ltac emits_step_by allowed :=
  first
    [ solve [auto with emits nocore]
    | apply emits_ret | apply emits_throw | apply emits_ask
    | apply emits_new_buffer
    | apply emits_log; solve [allowed]
    | apply emits_call; solve [allowed]
    | apply emits_bind; [ | intros ? ]
    | apply emits_try; [ | intros ? ]
    | match goal with
      | |- emits _ (if ?b then _ else _) => destruct b
      | |- emits _ (match ?x with _ => _ end) => destruct x
      end ].

Ltac emits_by allowed := cbv zeta; repeat emits_step_by allowed.

Ltac plainly_allowed :=
  first [exact I | reflexivity | left; reflexivity | right; reflexivity].

Ltac unfold_stages :=
  unfold ImageProcessor.convertToRekognitionCompatible,
    ImageProcessor.convertToWebPIfNeeded, ImageProcessor.convertToPNG,
    ImageProcessor.convertToWebP, ImageProcessor.instantiateSharpImage,
    ImageProcessor.instantiateSharpImage_catch, ImageProcessor.webp_catch,
    RekognitionClient.legacy_scanImageForModeration,
    RekognitionClient.hybrid_scanImageForModeration,
    RekognitionClient.scan_catch, RekognitionClient.make_tempKey,
    RekognitionClient.s3_put, RekognitionClient.s3_delete.

Section Calls.

Variable env : Env.

(** What the scan-compatibility conversion returns is tagged jpeg or png. *)
Lemma scan_compatible_tag b ct w r w' :
  ImageProcessor.convertToRekognitionCompatible env b ct w = (Returned r, w') ->
  ImageProcessor.getMimeType (ImageProcessor.format r) = "image/jpeg" \/
  ImageProcessor.getMimeType (ImageProcessor.format r) = "image/png".
Proof.
  intros H.
  destruct (Js.array_includes ImageProcessor.REKOGNITION_COMPATIBLE_FORMATS
              (ImageProcessor.extractFormatFromContentType ct)) eqn:E.
  - rewrite convertToRekognitionCompatible_passthrough in H by exact E.
    injection H as <- _. cbn [ImageProcessor.format].
    apply array_includes_In in E. simpl in E.
    destruct E as [<- | [<- | []]]; [left | right]; reflexivity.
  - apply convertToRekognitionCompatible_converts in H; [ | exact E].
    destruct H as [[bytes H] | H]; [ | discriminate H].
    injection H as ->. right. reflexivity.
Qed.

Lemma scan_of_scannable_is_well_typed v b mime :
  mime = "image/jpeg" \/ mime = "image/png" ->
  emits (fun e => well_typed_call e /\ is_codec_call e = false)
        (RekognitionClient.scanImageForModeration env v b mime).
Proof.
  intros [-> | ->]; destruct v; simpl; unfold_stages;
    try match goal with
        | |- context [negb ?a && negb ?b] =>
            change (negb a && negb b) with false; cbv iota;
            match goal with
            | |- context [bind (ret ?a) ?k] =>
                change (bind (ret a) k) with (k a); cbn [fst snd]
            end
        end;
    emits_by ltac:(split; plainly_allowed).
Qed.

(** The pipeline that [instantiateSharpImage] returns is over its input,
    with the image processor's limits. *)
Lemma instantiateSharpImage_returns b w sharp w' :
  ImageProcessor.instantiateSharpImage env b w = (Returned sharp, w') ->
  sharp = {| sharp_input := b;
             sharp_options := ImageProcessor.enhancedOptions |}.
Proof.
  intros H.
  unfold ImageProcessor.instantiateSharpImage,
    ImageProcessor.instantiateSharpImage_catch in H.
  invert_run; reflexivity.
Qed.

Lemma conversions_are_well_typed b ct :
  emits (fun e => well_typed_call e /\ codec_reads b e)
        (ImageProcessor.convertToRekognitionCompatible env b ct) /\
  emits (fun e => well_typed_call e /\ codec_reads b e)
        (ImageProcessor.convertToWebPIfNeeded env b ct).
Proof.
  assert (Hinst : emits (fun e => well_typed_call e /\ codec_reads b e)
                    (ImageProcessor.instantiateSharpImage env b)).
  { unfold_stages. emits_by ltac:(split; plainly_allowed). }
  assert (Hcatch : forall A t,
             emits (fun e => well_typed_call e /\ codec_reads b e)
               (@ImageProcessor.webp_catch A t)).
  { intros. unfold_stages. emits_by ltac:(split; plainly_allowed). }
  split.
  - unfold ImageProcessor.convertToRekognitionCompatible,
      ImageProcessor.convertToPNG.
    destruct (Js.array_includes _ _); [apply emits_ret | ].
    apply emits_try; [ | intros; emits_by ltac:(split; plainly_allowed)].
    apply emits_bind; [ | intros; apply emits_ret].
    apply emits_try; [ | intros; emits_by ltac:(split; plainly_allowed)].
    apply emits_bind_post
      with (Q := fun sharp =>
                   sharp = {| sharp_input := b;
                              sharp_options := ImageProcessor.enhancedOptions |}).
    + intros w s w'. apply instantiateSharpImage_returns.
    + exact Hinst.
    + intros s ->. emits_by ltac:(split; plainly_allowed).
  - unfold ImageProcessor.convertToWebPIfNeeded, ImageProcessor.convertToWebP.
    destruct (String.eqb _ _); [apply emits_ret | ].
    apply emits_try; [ | apply Hcatch].
    apply emits_bind; [ | intros; apply emits_ret].
    apply emits_try; [ | apply Hcatch].
    apply emits_bind_post
      with (Q := fun sharp =>
                   sharp = {| sharp_input := b;
                              sharp_options := ImageProcessor.enhancedOptions |}).
    + intros w s w'. apply instantiateSharpImage_returns.
    + exact Hinst.
    + intros s ->. emits_by ltac:(split; plainly_allowed).
Qed.

Lemma module_scan_calls client b ct :
  emits (fun e => well_typed_call e /\ codec_reads b e)
        (Index.scanImageForModeration env client b ct).
Proof.
  unfold Index.scanImageForModeration.
  apply emits_try; [ | intros; apply emits_throw].
  apply emits_bind_post
    with (Q := fun r =>
                 ImageProcessor.getMimeType (ImageProcessor.format r) = "image/jpeg" \/
                 ImageProcessor.getMimeType (ImageProcessor.format r) = "image/png").
  - intros w r w'. apply scan_compatible_tag.
  - apply conversions_are_well_typed.
  - intros r Hr. apply emits_bind; [ | intros; apply emits_ret].
    eapply emits_weaken;
      [ | apply scan_of_scannable_is_well_typed; exact Hr].
    intros e [Ht Hc]. split; [exact Ht | ].
    destruct e; try exact I; discriminate Hc.
Qed.

Lemma upload_calls b name ct :
  emits (fun e => well_typed_call e /\ codec_reads b e)
        (Index.uploadImageToBackblaze env b name ct).
Proof.
  unfold Index.uploadImageToBackblaze.
  apply emits_try; [ | intros; apply emits_throw].
  apply emits_bind_post
    with (Q := fun r => ImageProcessor.format r = "webp").
  - intros w r w' H.
    unfold ImageProcessor.convertToWebPIfNeeded, ImageProcessor.webp_catch in H.
    invert_run; reflexivity.
  - apply conversions_are_well_typed.
  - intros r Hr. rewrite Hr. unfold Index.b2_put.
    emits_by ltac:(split; plainly_allowed).
Qed.

End Calls.

(** X6.  Whatever the request, the collaborators and the revision of the
    client: every object staged in S3 for the scan is staged as image/jpeg
    or image/png, every object published to Backblaze is published as
    image/webp, and a png is only ever made with the image processor's
    codec limits (the conversion inside the Legacy client never runs
    under the handler). *)
Theorem handler_calls_are_well_typed env client event :
  emits well_typed_call (Index.handler env client event).
Proof.
  assert (Hscan : forall b ct,
             emits well_typed_call (Index.scanImageForModeration env client b ct)).
  { intros. eapply emits_weaken; [ | apply module_scan_calls].
    intros e [H _]. exact H. }
  assert (Hup : forall b name ct,
             emits well_typed_call (Index.uploadImageToBackblaze env b name ct)).
  { intros. eapply emits_weaken; [ | apply upload_calls].
    intros e [H _]. exact H. }
  unfold Index.handler, Index.handler_try, Index.after_scan.
  emits_by plainly_allowed.
Qed.

(** X7.  Both stages hand the codec the buffer they were given and no
    other: the scan stage decodes the upload itself, and the storage stage
    re-encodes the upload too, never the png that was made for the scan. *)
Theorem stages_decode_the_upload env client b name ct :
  emits (codec_reads b) (Index.scanImageForModeration env client b ct) /\
  emits (codec_reads b) (Index.uploadImageToBackblaze env b name ct).
Proof.
  split; (eapply emits_weaken; [ | first [apply module_scan_calls | apply upload_calls]]);
    intros e [_ H]; exact H.
Qed.

(** ** The scan on its own *)

(** X8.  A scan does not throw when it stages its input as given: every
    failure of S3 or of Rekognition comes back as a verdict.  The one way
    a scan throws is the Legacy revision failing to convert an image that
    is neither image/jpeg nor image/png, and then it throws a plain Error
    before anything has been staged. *)
Theorem scan_throws_only_on_conversion env v b ct w :
  (staged_as_given v ct ->
   exists r,
     fst (RekognitionClient.scanImageForModeration env v b ct w) = Returned r) /\
  (forall t w',
     RekognitionClient.scanImageForModeration env v b ct w = (Threw t, w') ->
     v = Legacy /\
     exists cause,
       t = JsError "Error"
             (String.append "Failed to convert image to PNG for Rekognition: "
                (render_thrown cause)) /\
       trace w'
         = ([EvLog Error "Failed to convert image to PNG for Rekognition";
            EvSharpPng b {| failOnError := false;
                            limitInputPixels := 268402689;
                            sequentialRead := false |}
              {| compressionLevel := None; adaptiveFiltering := None |};
            EvLog Info "Converting image to PNG for Rekognition compatibility";
            EvLog Info "Starting content moderation scan"] ++ trace w)%list).
Proof.
  assert (Hthrow : forall t w',
     RekognitionClient.scanImageForModeration env v b ct w = (Threw t, w') ->
     v = Legacy /\
     negb (String.eqb ct "image/jpeg") && negb (String.eqb ct "image/png") = true /\
     exists cause,
       t = JsError "Error"
             (String.append "Failed to convert image to PNG for Rekognition: "
                (render_thrown cause)) /\
       trace w'
         = ([EvLog Error "Failed to convert image to PNG for Rekognition";
            EvSharpPng b {| failOnError := false;
                            limitInputPixels := 268402689;
                            sequentialRead := false |}
              {| compressionLevel := None; adaptiveFiltering := None |};
            EvLog Info "Converting image to PNG for Rekognition compatibility";
            EvLog Info "Starting content moderation scan"] ++ trace w)%list).
  { intros t w' H. destruct v; unfold_scan; invert_run.
    split; [reflexivity | split; [reflexivity | ]].
    eexists. split; reflexivity. }
  split.
  - intros Hgiven.
    destruct (RekognitionClient.scanImageForModeration env v b ct w)
      as [[r | t] w'] eqn:H; [eauto | exfalso].
    destruct (Hthrow t w' eq_refl) as (-> & Hcond & _).
    destruct Hgiven as [Hv | Hct]; [discriminate Hv | ].
    rewrite (legacy_skips_conversion ct Hct) in Hcond. discriminate Hcond.
  - intros t w' H. destruct (Hthrow t w' H) as (Hv & _ & Hrest). auto.
Qed.

(** A Legacy scan of a jpeg while S3 is down. *)
Lemma scan_throws_only_on_conversion_witness :
  exists r,
    fst (RekognitionClient.scanImageForModeration
           (scripted (inr some_metadata) (inr []) (inr [])
              (inl (JsError "NetworkingError" "socket hang up"))
              (fun _ => inr tt) (inr None) (inr None) (inr tt))
           Legacy sample "image/jpeg" loaded) = Returned r.
Proof.
  apply (proj1 (scan_throws_only_on_conversion _ Legacy sample "image/jpeg" loaded)).
  right; left; reflexivity.
Defined.

Lemma startsWith_append p s : Js.startsWith (String.append p s) p = true.
Proof.
  induction p as [ | c p IH]; [destruct s; reflexivity | ].
  change (String.append (String c p) s) with (String c (String.append p s)).
  simpl. rewrite Ascii.eqb_refl. exact IH.
Qed.

Lemma grows_after_log {R} P level text (k : unit -> M R) w :
  P (EvLog level text) ->
  grows P (record (EvLog level text) w) (snd (k tt (record (EvLog level text) w))) ->
  grows P w (snd (bind (log level text) k w)).
Proof.
  intros He H. eapply grows_trans; [apply grows_record, He | exact H].
Qed.

Lemma grows_after_ask {R S} P (f : World -> S) (k : S -> M R) w :
  grows P w (snd (k (f w) w)) -> grows P w (snd (bind (ask f) k w)).
Proof. intros H. exact H. Qed.

Lemma grows_emits {R} P (m : M R) w : emits P m -> grows P w (snd (m w)).
Proof. intros H. apply H. Qed.

(** X9.  A scan that stages its input as given makes all its S3 and
    Rekognition calls about one object: the key under which the image is
    staged is the key Rekognition is pointed at and the key that is
    deleted.  That key is made when the scan starts, lies under
    temp-moderation/ and ends in .jpg for image/jpeg and in .png for
    everything else. *)
Theorem scan_uses_one_key env v b ct w :
  staged_as_given v ct ->
  let started := record (EvLog Info "Starting content moderation scan") w in
  let key := RekognitionClient.tempKey_of (uuidv4 env started)
               (date_now env started) ct in
  grows (uses_key key) w
    (snd (RekognitionClient.scanImageForModeration env v b ct w)) /\
  Js.startsWith key "temp-moderation/" = true /\
  Js.endsWith key (if String.eqb ct "image/jpeg" then ".jpg" else ".png") = true.
Proof.
  intros Hgiven started key. split; [ | split].
  - destruct v; simpl.
    + destruct Hgiven as [Hv | Hct]; [discriminate Hv | ].
      unfold RekognitionClient.legacy_scanImageForModeration.
      rewrite (legacy_skips_conversion ct Hct).
      apply grows_after_log; [exact I | ].
      match goal with
      | |- context [bind (ret ?a) ?k] =>
          change (bind (ret a) k) with (k a); cbn [fst snd]
      end.
      unfold RekognitionClient.make_tempKey.
      apply grows_after_ask. cbv beta. subst key started.
      set (k := RekognitionClient.tempKey_of _ _ _). clearbody k.
      generalize (record (EvLog Info "Starting content moderation scan") w).
      intros started. apply grows_emits.
      unfold_stages. emits_by plainly_allowed.
    + unfold RekognitionClient.hybrid_scanImageForModeration.
      apply grows_after_log; [exact I | ].
      unfold RekognitionClient.make_tempKey.
      apply grows_after_ask. cbv beta. subst key started.
      set (k := RekognitionClient.tempKey_of _ _ _). clearbody k.
      generalize (record (EvLog Info "Starting content moderation scan") w).
      intros started. apply grows_emits.
      unfold_stages. emits_by plainly_allowed.
  - apply startsWith_append.
  - unfold key, RekognitionClient.tempKey_of.
    do 4 apply endsWith_append.
    destruct (String.eqb ct "image/jpeg"); reflexivity.
Qed.

(** A Hybrid scan of a jpeg. *)
Lemma scan_uses_one_key_witness :
  Js.endsWith
    (RekognitionClient.tempKey_of
       (uuidv4 (calm []) (record (EvLog Info "Starting content moderation scan") loaded))
       (date_now (calm []) (record (EvLog Info "Starting content moderation scan") loaded))
       "image/jpeg")
    ".jpg" = true.
Proof.
  apply (proj2 (proj2 (scan_uses_one_key (calm []) Hybrid sample "image/jpeg"
                         loaded (or_introl eq_refl)))).
Defined.

(** A scan whose staging call fails: the verdict and the calls made. *)
Lemma scan_without_staging env v b ct w t :
  staged_as_given v ct ->
  (forall w0 key body type, s3_putObject env w0 key body type = inl t) ->
  let run := RekognitionClient.scanImageForModeration env v b ct w in
  fst run = Returned (verdict_after t) /\
  count is_rekognition_call (snd run) = count is_rekognition_call w /\
  count is_b2_put (snd run) = count is_b2_put w /\
  (1 <= count is_delete (snd run) - count is_delete w)%nat.
Proof.
  intros Hgiven Hput run. subst run.
  destruct v; simpl.
  - destruct Hgiven as [Hv | Hct]; [discriminate Hv | ].
    unfold RekognitionClient.legacy_scanImageForModeration.
    rewrite (legacy_skips_conversion ct Hct).
    unfold_stages. unfold bind, try_catch, call, log, ask, ret.
    rewrite Hput.
    match goal with
    | |- context [s3_deleteObject env ?w0 ?k] =>
        destruct (s3_deleteObject env w0 k)
    end; unfold count; simpl; repeat split; lia.
  - unfold RekognitionClient.hybrid_scanImageForModeration.
    unfold_stages. unfold bind, try_catch, call, log, ask, ret.
    rewrite Hput.
    match goal with
    | |- context [s3_deleteObject env ?w0 ?k] =>
        destruct (s3_deleteObject env w0 k)
    end; unfold count; simpl; repeat split; lia.
Qed.

(** X10.  When the image cannot be staged, Rekognition is not called at
    all: a scan that stages its input as given answers with the failed
    verdict that carries the staging error, and still asks for the key to
    be deleted. *)
Theorem unstaged_image_is_not_scanned env v b ct w t :
  staged_as_given v ct ->
  (forall w0 key body type, s3_putObject env w0 key body type = inl t) ->
  let run := RekognitionClient.scanImageForModeration env v b ct w in
  fst run = Returned (verdict_after t) /\
  count is_rekognition_call (snd run) = count is_rekognition_call w /\
  (1 <= count is_delete (snd run) - count is_delete w)%nat.
Proof.
  intros Hgiven Hput.
  destruct (scan_without_staging env v b ct w t Hgiven Hput)
    as (Hr & Hc & _ & Hd).
  cbv zeta. auto.
Qed.

(** A Hybrid scan while S3 refuses every upload. *)
Lemma unstaged_image_is_not_scanned_witness :
  let env := scripted (inr some_metadata) (inr []) (inr [])
               (inl (JsError "AccessDenied" "Access Denied"))
               (fun _ => inr tt) (inr None) (inr None) (inr tt) in
  let run := RekognitionClient.scanImageForModeration env Hybrid sample
               "image/png" loaded in
  fst run = Returned (verdict_after (JsError "AccessDenied" "Access Denied")) /\
  count is_rekognition_call (snd run) = count is_rekognition_call loaded /\
  (1 <= count is_delete (snd run) - count is_delete loaded)%nat.
Proof.
  cbv zeta.
  apply (unstaged_image_is_not_scanned _ Hybrid sample "image/png" loaded
           (JsError "AccessDenied" "Access Denied")).
  - left; reflexivity.
  - reflexivity.
Defined.

(** ** The reported confidence *)

Lemma Math_max_bounds a b :
  (a <= RekognitionClient.Math_max a b)%Q /\
  (b <= RekognitionClient.Math_max a b)%Q /\
  (RekognitionClient.Math_max a b = a \/ RekognitionClient.Math_max a b = b).
Proof.
  unfold RekognitionClient.Math_max.
  destruct (Qle_bool a b) eqn:E.
  - apply Qle_bool_iff in E. repeat split; auto. apply Qle_refl.
  - repeat split; auto; [apply Qle_refl | ].
    apply Qlt_le_weak, Qnot_le_lt. intros H.
    apply Qle_bool_iff in H. congruence.
Qed.

Lemma fold_max_bounds labels acc :
  let top := fold_left
               (fun max label =>
                  RekognitionClient.Math_max max
                    (RekognitionClient.confidence_or_0 label))
               labels acc in
  (acc <= top)%Q /\
  (forall l, In l labels -> (RekognitionClient.confidence_or_0 l <= top)%Q) /\
  (top = acc \/
   exists l, In l labels /\ top = RekognitionClient.confidence_or_0 l).
Proof.
  revert acc. induction labels as [ | x labels IH]; intros acc; cbv zeta.
  - simpl. repeat split; [apply Qle_refl | intros l [] | auto].
  - simpl fold_left.
    destruct (Math_max_bounds acc (RekognitionClient.confidence_or_0 x))
      as (Ha & Hx & Hsel).
    destruct (IH (RekognitionClient.Math_max acc
                    (RekognitionClient.confidence_or_0 x)))
      as (Hacc & Hall & Hatt).
    repeat split.
    + eapply Qle_trans; eassumption.
    + intros l [<- | Hl]; [eapply Qle_trans; eassumption | apply Hall, Hl].
    + destruct Hatt as [-> | (l & Hl & ->)].
      * destruct Hsel as [-> | ->]; [left; reflexivity | ].
        right. exists x. split; [left; reflexivity | reflexivity].
      * right. exists l. split; [right; exact Hl | reflexivity].
Qed.

(** X11.  The confidence of a verdict is taken over all the moderation
    labels of the reply, rejected or not: it is at least 0 and at least
    the confidence of every label, and it is either 0 or the confidence of
    one of the labels. *)
Theorem confidence_is_the_maximum labels :
  let top := RekognitionClient.max_confidence labels in
  (0 <= top)%Q /\
  (forall l, In l labels -> (RekognitionClient.confidence_or_0 l <= top)%Q) /\
  (top = 0%Q \/
   exists l, In l labels /\ top = RekognitionClient.confidence_or_0 l).
Proof. apply fold_max_bounds. Qed.

(** ** The upload *)

Lemma run_keeps_count {R} (p : Event -> bool) (P : Event -> Prop)
    (m : M R) w o w' :
  (forall e, P e -> p e = false) -> emits P m ->
  m w = (o, w') -> count p w' = count p w.
Proof.
  intros HP Hm Hrun. apply (grows_count p P); [exact HP | ].
  specialize (Hm w). rewrite Hrun in Hm. exact Hm.
Qed.

Section Upload.

Variable env : Env.
Variable client : Variant.

(** What the storage conversion returns is tagged webp. *)
Lemma storage_tag b ct w r w' :
  ImageProcessor.convertToWebPIfNeeded env b ct w = (Returned r, w') ->
  ImageProcessor.format r = "webp".
Proof.
  intros H.
  unfold ImageProcessor.convertToWebPIfNeeded, ImageProcessor.webp_catch in H.
  invert_run; reflexivity.
Qed.

Lemma conversion_for_scan_is_local b ct :
  emits (fun e => is_remote_call e = false)
        (ImageProcessor.convertToRekognitionCompatible env b ct).
Proof. unfold_stages. emits_by plainly_allowed. Qed.

End Upload.

Section Published.

Variable env : Env.
Variable client : Variant.

(** A request puts at most one object in Backblaze. *)
Lemma handler_publishes_at_most_once event w :
  (count is_b2_put (snd (Index.handler env client event w))
     <= S (count is_b2_put w))%nat.
Proof.
  destruct (Index.handler env client event w) as [o w'] eqn:Hrun.
  unfold Index.handler, Index.handler_try, Index.after_scan,
    Index.uploadImageToBackblaze, Index.b2_put in Hrun.
  destruct event as [body | ];
    [destruct (Js.falsy (Index.imageData body) || Js.falsy (Index.filename body));
     destruct (ImageProcessor.isSupportedFormat
                 (Js.or_default (Index.contentType body) "image/jpeg")) | ];
    cbn [negb] in Hrun; invert_run;
    repeat match goal with
      | H : Index.scanImageForModeration _ _ _ _ _ = _ |- _ =>
          apply (run_keeps_count is_b2_put internal) in H;
          [ | intros e He; exact He | apply scanImageForModeration_internal]
      | H : ImageProcessor.convertToWebPIfNeeded _ _ _ _ = _ |- _ =>
          apply (run_keeps_count is_b2_put internal) in H;
          [ | intros e He; exact He | apply convertToWebPIfNeeded_internal]
      end;
    unfold count in *; simpl in *; lia.
Qed.

End Published.

(** X12.  A request makes at most one Backblaze [putObject].  And a
    response with status 200 is only given when the scan stage, run on the
    decoded upload under the declared content type, returned a verdict
    with [passed = true], the storage conversion of the same upload then
    returned an image tagged webp, and the [putObject] of that image as
    image/webp under the final filename succeeded: that call is the last
    thing the request did, and the response carries the final filename,
    the url CDN_URL/filename, the declared format and the confidence of
    that verdict. *)
Theorem success_means_published env client event w :
  let run := Index.handler env client event w in
  (count is_b2_put (snd run) <= S (count is_b2_put w))%nat /\
  (forall response,
     fst run = Returned response ->
     Index.statusCode response = 200 ->
     exists body verdict scanned stored converted,
       let contentType :=
         Js.or_default (Index.contentType body) "image/jpeg" in
       let imageBuffer :=
         {| buf_id := next_buffer w;
            buf_bytes :=
              base64_decode env (Js.or_default (Index.imageData body) "") |} in
       let decoded :=
         {| trace := trace w; next_buffer := S (next_buffer w) |} in
       let name :=
         Index.finalFilename_of (Js.or_default (Index.filename body) "") in
       event = Some body /\
       Index.scanImageForModeration env client imageBuffer contentType decoded
         = (Returned verdict, scanned) /\
       Index.passed verdict = true /\
       ImageProcessor.convertToWebPIfNeeded env imageBuffer contentType scanned
         = (Returned stored, converted) /\
       ImageProcessor.format stored = "webp" /\
       b2_putObject env converted name (ImageProcessor.buffer stored)
         "image/webp" = inr tt /\
       snd run
         = record (EvB2PutObject name (ImageProcessor.buffer stored)
                     "image/webp") converted /\
       response
         = Index.uploaded name
             (String.append
                (match CDN_URL env with Some u => u | None => "undefined" end)
                (String.append "/" name))
             (ImageProcessor.extractFormatFromContentType contentType)
             verdict).
Proof.
  cbv zeta. split; [apply handler_publishes_at_most_once | ].
  intros response Hr Hs.
  destruct (Index.handler env client event w) as [o w'] eqn:Hrun.
  simpl in Hr. subst o.
  unfold Index.handler, Index.handler_try, Index.after_scan,
    Index.uploadImageToBackblaze, Index.b2_put in Hrun.
  destruct event as [body | ];
    [destruct (Js.falsy (Index.imageData body) || Js.falsy (Index.filename body));
     destruct (ImageProcessor.isSupportedFormat
                 (Js.or_default (Index.contentType body) "image/jpeg")) | ];
    cbn [negb] in Hrun; invert_run; try discriminate Hs.
  match goal with
  | Hscan : Index.scanImageForModeration _ _ _ _ _ = (Returned ?verdict, ?scanned),
    Hconv : ImageProcessor.convertToWebPIfNeeded _ _ _ _ = (Returned ?stored, ?converted),
    Hput : b2_putObject _ _ _ _ _ = inr _,
    Hpass : negb (Index.passed _) = false |- _ =>
      pose proof (storage_tag _ _ _ _ _ _ Hconv) as Htag;
      rewrite Htag in Hput;
      exists body, verdict, scanned, stored, converted;
      split; [reflexivity | ];
      split; [exact Hscan | ];
      split; [apply negb_false_iff, Hpass | ];
      split; [exact Hconv | ];
      split; [exact Htag | ];
      split; [exact Hput | ];
      split; [simpl; rewrite Htag; reflexivity | reflexivity]
  end.
Qed.

(** A png that passes moderation: it is scanned as it is, converted to
    webp and published as a.webp. *)
Lemma success_means_published_witness :
  exists verdict scanned stored converted,
    Index.scanImageForModeration (calm []) Hybrid
      {| buf_id := 0; buf_bytes := base64_decode (calm []) "iVBORw==" |}
      "image/png" {| trace := []; next_buffer := 1 |}
      = (Returned verdict, scanned) /\
    Index.passed verdict = true /\
    ImageProcessor.convertToWebPIfNeeded (calm [])
      {| buf_id := 0; buf_bytes := base64_decode (calm []) "iVBORw==" |}
      "image/png" scanned
      = (Returned stored, converted) /\
    snd (Index.handler (calm []) Hybrid
           (Some (request "iVBORw==" "a.png" (Some "image/png"))) start)
      = record (EvB2PutObject "a.webp" (ImageProcessor.buffer stored)
                  "image/webp") converted.
Proof.
  destruct (proj2 (success_means_published (calm []) Hybrid
                     (Some (request "iVBORw==" "a.png" (Some "image/png")))
                     start)
              (Index.uploaded "a.webp" "https://cdn.example/a.webp" "png"
                 {| Index.passed := true; Index.moderationLabels := [];
                    Index.confidence := 0%Q |}))
    as (body & verdict & scanned & stored & converted
        & Hbody & Hscan & Hpass & Hconv & _ & _ & Hend & _).
  - vm_compute; reflexivity.
  - reflexivity.
  - injection Hbody as <-.
    exists verdict, scanned, stored, converted.
    repeat split; assumption.
Defined.

(** X13.  When the image cannot be made scannable (the conversion for the
    scan throws), the request is answered 500 INTERNAL_ERROR and no call
    has been made to S3, Rekognition or Backblaze. *)
Theorem unscannable_image_is_an_internal_error
    env client body w imageBuffer w1 failure :
  Js.falsy (Index.imageData body) = false ->
  Js.falsy (Index.filename body) = false ->
  ImageProcessor.isSupportedFormat
    (Js.or_default (Index.contentType body) "image/jpeg") = true ->
  new_buffer (base64_decode env (Js.or_default (Index.imageData body) "")) w
    = (Returned imageBuffer, w1) ->
  (buf_length imageBuffer >? Index.maxSizeBytes) = false ->
  fst (ImageProcessor.convertToRekognitionCompatible env imageBuffer
         (Js.or_default (Index.contentType body) "image/jpeg") w1)
    = Threw failure ->
  let run := Index.handler env client (Some body) w in
  fst run = Returned Index.internal_error /\
  count is_remote_call (snd run) = count is_remote_call w.
Proof.
  intros Hdata Hname Hformat Hbuf Hsize Hconv. cbv zeta.
  rewrite (handler_reaches_scan env client body w imageBuffer w1)
    by assumption.
  unfold Index.scanImageForModeration.
  destruct (ImageProcessor.convertToRekognitionCompatible env imageBuffer
              (Js.or_default (Index.contentType body) "image/jpeg") w1)
    as [o w2] eqn:E.
  simpl in Hconv. subst o.
  unfold try_catch, bind. rewrite E. simpl.
  split; [reflexivity | ].
  apply (run_keeps_count is_remote_call _ _ _ _ _ (fun e He => He)
           (conversion_for_scan_is_local env imageBuffer _)) in E.
  apply new_buffer_inv in Hbuf. destruct Hbuf as [_ ->].
  unfold count in *. simpl in *. exact E.
Qed.

(** A webp upload whose bytes the codec does not recognise. *)
Lemma unscannable_image_is_an_internal_error_witness :
  let env := unreadable "Input buffer contains unsupported image format" in
  let run := Index.handler env Hybrid
               (Some (request "bm90IGFuIGltYWdl" "x.webp" (Some "image/webp")))
               start in
  fst run = Returned Index.internal_error /\
  count is_remote_call (snd run) = count is_remote_call start.
Proof.
  cbv zeta.
  apply (unscannable_image_is_an_internal_error
           (unreadable "Input buffer contains unsupported image format") Hybrid
           (request "bm90IGFuIGltYWdl" "x.webp" (Some "image/webp")) start
           {| buf_id := 0;
              buf_bytes := base64_decode
                             (unreadable "Input buffer contains unsupported image format")
                             "bm90IGFuIGltYWdl" |}
           loaded
           (ImageProcessorError 500 "RekognitionCompatibilityError"
              "Failed to convert image to Rekognition compatible format."));
    vm_compute; reflexivity.
Defined.

(** ** Characters that a message lacks *)

Lemma all_chars_append p a b :
  Js.all_chars p (String.append a b) = Js.all_chars p a && Js.all_chars p b.
Proof.
  induction a as [ | c a IH]; [reflexivity | ].
  change (String.append (String c a) b) with (String c (String.append a b)).
  simpl. rewrite IH. apply andb_assoc.
Qed.

Lemma all_chars_impl (p q : ascii -> bool) s :
  (forall a, p a = true -> q a = true) ->
  Js.all_chars p s = true -> Js.all_chars q s = true.
Proof.
  intros Hpq. induction s as [ | c s IH]; simpl; [reflexivity | ].
  intros H. apply andb_true_iff in H. destruct H as [Hc Hs].
  rewrite (Hpq c Hc), (IH Hs). reflexivity.
Qed.

Lemma string_of_uint_decimal d :
  Js.all_chars is_decimal_char (NilEmpty.string_of_uint d) = true.
Proof. induction d; simpl; try rewrite IHd; reflexivity. Qed.

Lemma show_Z_decimal z : Js.all_chars is_decimal_char (Js.show_Z z) = true.
Proof.
  unfold Js.show_Z, NilZero.string_of_int, NilZero.string_of_uint.
  destruct (Z.to_int z) as [d | d]; destruct d;
    try reflexivity; simpl;
    rewrite string_of_uint_decimal; reflexivity.
Qed.

Lemma show_Z_lacks c z : is_decimal_char c = false -> lacks c (Js.show_Z z) = true.
Proof.
  intros Hc. unfold lacks.
  apply (all_chars_impl is_decimal_char); [ | apply show_Z_decimal].
  intros a Ha. destruct (Ascii.eqb_spec a c) as [-> | _]; [congruence | reflexivity].
Qed.

Lemma startsWith_lacks c needle s :
  lacks c s = true -> lacks c needle = false -> Js.startsWith s needle = false.
Proof.
  revert s. induction needle as [ | a needle IH]; intros s Hs Hn.
  - discriminate Hn.
  - destruct s as [ | b s]; [reflexivity | ].
    unfold lacks in Hs, Hn. simpl in Hs, Hn |- *.
    apply andb_true_iff in Hs. destruct Hs as [Hb Hs].
    apply andb_false_iff in Hn. destruct Hn as [Ha | Hn].
    + apply negb_false_iff, Ascii.eqb_eq in Ha. subst a.
      apply negb_true_iff in Hb. rewrite Ascii.eqb_sym, Hb. reflexivity.
    + rewrite (IH s Hs Hn). apply andb_false_r.
Qed.

Lemma includes_lacks c needle s :
  lacks c s = true -> lacks c needle = false -> Js.includes s needle = false.
Proof.
  intros Hs Hn. induction s as [ | b s IH].
  - change (Js.includes "" needle) with (Js.startsWith "" needle || false).
    rewrite (startsWith_lacks c needle "" Hs Hn). reflexivity.
  - change (Js.includes (String b s) needle)
      with (Js.startsWith (String b s) needle || Js.includes s needle).
    rewrite (startsWith_lacks c needle (String b s) Hs Hn).
    apply IH. unfold lacks in *. simpl in Hs.
    apply andb_true_iff in Hs. apply Hs.
Qed.

Lemma startsWith_longer s t p :
  Js.startsWith s p = true -> Js.startsWith (String.append s t) p = true.
Proof.
  revert s. induction p as [ | a p IH]; intros s H.
  - destruct (String.append s t); reflexivity.
  - destruct s as [ | b s]; [discriminate H | ].
    change (String.append (String b s) t) with (String b (String.append s t)).
    simpl in H |- *. apply andb_true_iff in H. destruct H as [-> H].
    apply IH, H.
Qed.

Lemma includes_longer s t needle :
  Js.includes s needle = true -> Js.includes (String.append s t) needle = true.
Proof.
  induction s as [ | b s IH].
  - change (Js.includes "" needle) with (Js.startsWith "" needle || false).
    rewrite orb_false_r. destruct needle; [ | discriminate].
    intros _. destruct (String.append "" t); reflexivity.
  - change (String.append (String b s) t) with (String b (String.append s t)).
    change (Js.includes (String b s) needle)
      with (Js.startsWith (String b s) needle || Js.includes s needle).
    change (Js.includes (String b (String.append s t)) needle)
      with (Js.startsWith (String b (String.append s t)) needle
            || Js.includes (String.append s t) needle).
    intros H. apply orb_true_iff in H. destruct H as [H | H].
    + pose proof (startsWith_longer (String b s) t needle H) as H'.
      change (String.append (String b s) t)
        with (String b (String.append s t)) in H'.
      rewrite H'. reflexivity.
    + rewrite (IH H). apply orb_true_r.
Qed.

(** The message of the dimension guard speaks of dimensions and has
    neither a y nor a b in it, so neither memory nor buffer. *)
Lemma dimensions_message_signals wd ht :
  let m := ImageProcessor.dimensions_message
             {| width := Some wd; height := Some ht |} in
  Js.includes m "memory" = false /\
  Js.includes m "buffer" = false /\
  Js.includes m "dimension" = true.
Proof.
  cbv zeta. unfold ImageProcessor.dimensions_message. cbn [width height].
  unfold ImageProcessor.show_dim.
  split; [ | split].
  - apply (includes_lacks "y"); [ | reflexivity].
    unfold lacks. rewrite !all_chars_append.
    fold (lacks "y" (Js.show_Z wd)). fold (lacks "y" (Js.show_Z ht)).
    rewrite !show_Z_lacks by reflexivity. reflexivity.
  - apply (includes_lacks "b"); [ | reflexivity].
    unfold lacks. rewrite !all_chars_append.
    fold (lacks "b" (Js.show_Z wd)). fold (lacks "b" (Js.show_Z ht)).
    rewrite !show_Z_lacks by reflexivity. reflexivity.
  - apply includes_longer. reflexivity.
Qed.

(** X14.  The dimension limit is 8192 in each direction, inclusive.  When
    the codec reports a width and a height, both non-zero:
    [instantiateSharpImage] returns the pipeline when neither exceeds 8192,
    and when one does it throws the 413 ImageTooLarge error, which the
    storage conversion passes on unchanged.  An image for which the codec
    reports no width is not checked. *)
Theorem dimension_limit env b w metadata :
  sharp_metadata env w b ImageProcessor.enhancedOptions = inr metadata ->
  let pipeline := {| sharp_input := b;
                     sharp_options := ImageProcessor.enhancedOptions |} in
  let too_large :=
    ImageProcessorError 413 "ImageTooLarge"
      "Image dimensions are too large for 24MB Lambda environment. Please reduce image dimensions and try again." in
  (forall wd ht,
     metadata = {| width := Some wd; height := Some ht |} ->
     wd <> 0 -> ht <> 0 ->
     (wd <= 8192 /\ ht <= 8192 ->
      fst (ImageProcessor.instantiateSharpImage env b w) = Returned pipeline) /\
     (8192 < wd \/ 8192 < ht ->
      fst (ImageProcessor.instantiateSharpImage env b w) = Threw too_large /\
      forall ct,
        ImageProcessor.extractFormatFromContentType ct <> "webp" ->
        fst (ImageProcessor.convertToWebPIfNeeded env b ct w) = Threw too_large)) /\
  (width metadata = None ->
   fst (ImageProcessor.instantiateSharpImage env b w) = Returned pipeline).
Proof.
  intros Hmeta pipeline too_large. split.
  - intros wd ht -> Hwd Hht.
    assert (Hrun : forall o w',
               ImageProcessor.instantiateSharpImage env b w = (o, w') ->
               (wd <= 8192 /\ ht <= 8192 -> o = Returned pipeline) /\
               (8192 < wd \/ 8192 < ht -> o = Threw too_large)).
    { intros o w'.
      unfold ImageProcessor.instantiateSharpImage, try_catch, bind, call.
      rewrite Hmeta. cbn [width height ImageProcessor.truthy ImageProcessor.exceeds].
      apply Z.eqb_neq in Hwd, Hht. rewrite Hwd, Hht. cbn [negb andb].
      unfold ImageProcessor.MAX_IMAGE_DIMENSION.
      destruct (dimensions_message_signals wd ht) as (Hm & Hb & Hd).
      cbv zeta in Hm, Hb, Hd.
      destruct (Z.gtb_spec wd 8192) as [Ew | Ew];
        destruct (Z.gtb_spec ht 8192) as [Eh | Eh]; cbn [orb];
        unfold log, throw, ret; cbv beta iota;
        try (unfold ImageProcessor.instantiateSharpImage_catch;
             cbn [error_message]; rewrite Hm, Hb, Hd;
             cbn [orb andb]; rewrite orb_true_r;
             unfold bind, log, throw; cbv beta iota);
        intros H; injection H as <- _;
        (split; [intros [? ?] | intros [? | ?]]);
        solve [reflexivity | lia]. }
    destruct (ImageProcessor.instantiateSharpImage env b w) as [o w'] eqn:E.
    destruct (Hrun o w' eq_refl) as [Hok Hbad].
    split; [exact Hok | ].
    intros Hlarge. specialize (Hbad Hlarge). subst o.
    split; [reflexivity | ].
    intros ct Hct. unfold ImageProcessor.convertToWebPIfNeeded.
    apply String.eqb_neq in Hct. rewrite Hct.
    unfold ImageProcessor.convertToWebP, try_catch, bind.
    rewrite E. reflexivity.
  - intros Hnone.
    unfold ImageProcessor.instantiateSharpImage, try_catch, bind, call.
    rewrite Hmeta, Hnone. reflexivity.
Qed.

(** An image of 9000 by 100 pixels. *)
Lemma dimension_limit_witness :
  fst (ImageProcessor.instantiateSharpImage
         (scripted (inr {| width := Some 9000; height := Some 100 |})
            (inr []) (inr []) (inr tt) (fun _ => inr tt)
            (inr None) (inr None) (inr tt))
         sample loaded)
    = Threw (ImageProcessorError 413 "ImageTooLarge"
               "Image dimensions are too large for 24MB Lambda environment. Please reduce image dimensions and try again.").
Proof.
  apply (proj1 (dimension_limit
                  (scripted (inr {| width := Some 9000; height := Some 100 |})
                     (inr []) (inr []) (inr tt) (fun _ => inr tt)
                     (inr None) (inr None) (inr tt))
                  sample loaded {| width := Some 9000; height := Some 100 |}
                  eq_refl)
           9000 100 eq_refl).
  - discriminate.
  - discriminate.
  - left. lia.
Defined.

(** X15.  The two conversions of the image processor never let an error
    of the codec through as it is: whatever they throw is an
    [ImageProcessorError]. *)
Theorem conversions_throw_their_own_errors env b ct w t w' :
  ImageProcessor.convertToRekognitionCompatible env b ct w = (Threw t, w') \/
  ImageProcessor.convertToWebPIfNeeded env b ct w = (Threw t, w') ->
  exists status kind text, t = ImageProcessorError status kind text.
Proof.
  intros [H | H].
  - destruct (Js.array_includes ImageProcessor.REKOGNITION_COMPATIBLE_FORMATS
                (ImageProcessor.extractFormatFromContentType ct)) eqn:E.
    + rewrite convertToRekognitionCompatible_passthrough in H by exact E.
      discriminate H.
    + apply convertToRekognitionCompatible_converts in H; [ | exact E].
      destruct H as [[bytes H] | H]; [discriminate H | ].
      injection H as ->. eauto.
  - unfold ImageProcessor.convertToWebPIfNeeded in H.
    destruct (String.eqb _ "webp"); [discriminate H | ].
    apply try_inv in H.
    destruct H as [(? & _ & ?) | (cause & w0 & _ & H)]; [discriminate | ].
    destruct (@webp_catch_kind ImageProcessor.Conversion cause w0)
      as (status & text & E).
    rewrite E in H. injection H as <- _. eauto.
Qed.

(** A png that the codec cannot read, on its way to storage. *)
Lemma conversions_throw_their_own_errors_witness :
  exists status kind text,
    ImageProcessorError 400 "InstantiationError"
      "Input image could not be instantiated. Please choose a valid image."
    = ImageProcessorError status kind text.
Proof.
  apply (conversions_throw_their_own_errors (unreadable "boom") sample
           "image/png" loaded _
           (snd (ImageProcessor.convertToWebPIfNeeded (unreadable "boom")
                   sample "image/png" loaded))).
  right. vm_compute. reflexivity.
Defined.

(** ** The final filename, again *)

Lemma has_extension_split s :
  has_extension s = true ->
  exists stem ext,
    s = String.append stem (String "." ext) /\
    ext <> "" /\
    Js.all_chars Js.not_slash_or_dot ext = true.
Proof.
  induction s as [ | c s IH]; intros H; [discriminate H | ].
  change (has_extension (String c s))
    with (Js.matches_extension_here (String c s) || has_extension s) in H.
  apply orb_true_iff in H. destruct H as [H | H].
  - unfold Js.matches_extension_here in H.
    destruct s as [ | d t]; [discriminate H | ].
    apply andb_true_iff in H. destruct H as [Hdot Hext].
    apply Ascii.eqb_eq in Hdot. subst c.
    exists "", (String d t). repeat split; [discriminate | exact Hext].
  - destruct (IH H) as (stem & ext & -> & Hne & Hext).
    exists (String c stem), ext. repeat split; assumption.
Qed.

Lemma endsWith_has_extension s :
  Js.endsWith s ".webp" = true -> has_extension s = true.
Proof.
  induction s as [ | c s IH]; intros H; [discriminate H | ].
  change (has_extension (String c s))
    with (Js.matches_extension_here (String c s) || has_extension s).
  change (Js.endsWith (String c s) ".webp")
    with (String.eqb (String c s) ".webp" || Js.endsWith s ".webp") in H.
  apply orb_true_iff in H. destruct H as [H | H].
  - apply String.eqb_eq in H. rewrite H. reflexivity.
  - rewrite (IH H). apply orb_true_r.
Qed.

(** X16.  Replacing the extension is idempotent, and the final filename
    ends in .webp exactly when the caller's filename has an extension to
    replace. *)
Theorem final_filename_is_stable name :
  Index.finalFilename_of (Index.finalFilename_of name)
    = Index.finalFilename_of name /\
  Js.endsWith (Index.finalFilename_of name) ".webp" = has_extension name.
Proof.
  unfold Index.finalFilename_of.
  destruct (has_extension name) eqn:E.
  - destruct (has_extension_split name E) as (stem & ext & -> & Hne & Hext).
    rewrite (replace_extension_stem stem ext ".webp" Hne Hext).
    split.
    + apply (replace_extension_stem stem "webp" ".webp"); [discriminate | reflexivity].
    + apply endsWith_append. reflexivity.
  - rewrite (replace_extension_none name ".webp" E).
    split; [apply replace_extension_none, E | ].
    destruct (Js.endsWith name ".webp") eqn:Hends; [ | reflexivity].
    apply endsWith_has_extension in Hends. congruence.
Qed.

(** The other mime types fall back to image/jpeg. *)
Lemma getMimeType_is_closed_witness :
  ImageProcessor.getMimeType "gif" = "image/jpeg".
Proof.
  apply (proj1 (proj2 (getMimeType_is_closed "gif" eq_refl))); discriminate.
Defined.

(** Two labels, the second one higher. *)
Lemma confidence_is_the_maximum_witness :
  (RekognitionClient.confidence_or_0 (label "Weapons" 30)
   <= RekognitionClient.max_confidence [label "Weapons" 30; label "Drugs" 80])%Q.
Proof.
  apply (proj1 (proj2 (confidence_is_the_maximum
                         [label "Weapons" 30; label "Drugs" 80]))).
  left. reflexivity.
Defined.

(** X17.  An outage of S3 is reported as a failed moderation, not as a
    server error: when the staging call fails, a jpeg or png request that
    passed the cheap checks is answered 400 MODERATION_FAILED with no
    labels and confidence 0, the text of the S3 error is not in the
    response, and nothing is published. *)
Theorem staging_outage_is_a_failed_moderation
    env client body w imageBuffer w1 t :
  Js.falsy (Index.imageData body) = false ->
  Js.falsy (Index.filename body) = false ->
  Js.array_includes ImageProcessor.REKOGNITION_COMPATIBLE_FORMATS
    (ImageProcessor.extractFormatFromContentType
       (Js.or_default (Index.contentType body) "image/jpeg")) = true ->
  new_buffer (base64_decode env (Js.or_default (Index.imageData body) "")) w
    = (Returned imageBuffer, w1) ->
  (buf_length imageBuffer >? Index.maxSizeBytes) = false ->
  (forall w0 key b type, s3_putObject env w0 key b type = inl t) ->
  let run := Index.handler env client (Some body) w in
  fst run
    = Returned
        {| Index.statusCode := 400;
           Index.body :=
             {| Index.success := false;
                Index.message := "Image failed moderation checks";
                Index.data := Some (Index.ModerationData [] 0%Q);
                Index.error := Some "MODERATION_FAILED" |} |} /\
  count is_b2_put (snd run) = count is_b2_put w.
Proof.
  intros Hdata Hname Htag Hbuf Hsize Hput. cbv zeta.
  assert (Hformat : ImageProcessor.isSupportedFormat
            (Js.or_default (Index.contentType body) "image/jpeg") = true).
  { apply array_includes_In in Htag. simpl in Htag.
    unfold ImageProcessor.isSupportedFormat.
    destruct Htag as [<- | [<- | []]]; reflexivity. }
  rewrite (handler_reaches_scan env client body w imageBuffer w1)
    by assumption.
  unfold Index.scanImageForModeration.
  unfold try_catch, bind.
  rewrite convertToRekognitionCompatible_passthrough by exact Htag.
  cbn [ImageProcessor.buffer ImageProcessor.format].
  assert (Hgiven : staged_as_given client
            (ImageProcessor.getMimeType
               (ImageProcessor.extractFormatFromContentType
                  (Js.or_default (Index.contentType body) "image/jpeg")))).
  { right. apply array_includes_In in Htag. simpl in Htag.
    destruct Htag as [<- | [<- | []]]; [left | right]; reflexivity. }
  destruct (scan_without_staging env client imageBuffer _ w1 t Hgiven Hput)
    as (Hr & _ & Hb & _).
  cbv zeta in Hr, Hb.
  set (run := RekognitionClient.scanImageForModeration env client imageBuffer
                _ w1) in *.
  destruct run as [o w2]. simpl in Hr, Hb. subst o.
  unfold ret, Index.after_scan. simpl.
  split; [reflexivity | ].
  apply new_buffer_inv in Hbuf. destruct Hbuf as [_ ->].
  unfold count in *. simpl in *. exact Hb.
Qed.

(** A png sent while S3 refuses every upload. *)
Lemma staging_outage_is_a_failed_moderation_witness :
  let env := scripted (inr some_metadata) (inr []) (inr [])
               (inl (JsError "AccessDenied" "Access Denied"))
               (fun _ => inr tt) (inr None) (inr None) (inr tt) in
  let run := Index.handler env Hybrid
               (Some (request "iVBORw==" "a.png" (Some "image/png"))) start in
  fst run
    = Returned
        {| Index.statusCode := 400;
           Index.body :=
             {| Index.success := false;
                Index.message := "Image failed moderation checks";
                Index.data := Some (Index.ModerationData [] 0%Q);
                Index.error := Some "MODERATION_FAILED" |} |} /\
  count is_b2_put (snd run) = count is_b2_put start.
Proof.
  cbv zeta.
  apply (staging_outage_is_a_failed_moderation
           (scripted (inr some_metadata) (inr []) (inr [])
              (inl (JsError "AccessDenied" "Access Denied"))
              (fun _ => inr tt) (inr None) (inr None) (inr tt))
           Hybrid (request "iVBORw==" "a.png" (Some "image/png")) start
           {| buf_id := 0;
              buf_bytes := map Ascii.byte_of_ascii (list_ascii_of_string "iVBORw==") |}
           loaded (JsError "AccessDenied" "Access Denied"));
    reflexivity.
Defined.

(** ** The conversion for the scan, step by step *)

Lemma not_scan_compatible tag :
  tag <> "jpeg" -> tag <> "png" ->
  Js.array_includes ImageProcessor.REKOGNITION_COMPATIBLE_FORMATS tag = false.
Proof.
  intros Hj Hp. apply not_true_is_false. rewrite array_includes_In.
  simpl. intros [H | [H | []]]; congruence.
Qed.

(** X18.  [convertToRekognitionCompatible] follows the codec.  For the
    tags jpeg and png it returns the input buffer itself with
    [converted = false] and calls nothing.  For every other tag: when the
    codec reads the metadata, they are within the dimension limit and it
    encodes a png, the call returns a buffer allocated by this call that
    holds exactly those bytes, tagged png, with [converted = true], after
    these two codec calls and nothing else; and when the codec does not
    make a png, the call throws RekognitionCompatibilityError and no
    buffer is allocated. *)
Theorem scan_compatible_conversion env b ct w :
  let tag := ImageProcessor.extractFormatFromContentType ct in
  let run := ImageProcessor.convertToRekognitionCompatible env b ct w in
  (tag = "jpeg" \/ tag = "png" ->
   run = (Returned {| ImageProcessor.buffer := b;
                      ImageProcessor.format := tag;
                      ImageProcessor.converted := false |}, w)) /\
  (tag <> "jpeg" -> tag <> "png" ->
   (forall bytes,
      codec_makes_png env b w bytes ->
      run = (Returned {| ImageProcessor.buffer :=
                           {| buf_id := next_buffer w; buf_bytes := bytes |};
                         ImageProcessor.format := "png";
                         ImageProcessor.converted := true |},
             {| trace :=
                  EvSharpPng b ImageProcessor.enhancedOptions scan_png
                    :: EvSharpMetadata b ImageProcessor.enhancedOptions
                    :: trace w;
                next_buffer := S (next_buffer w) |})) /\
   ((forall bytes, ~ codec_makes_png env b w bytes) ->
    fst run = Threw (ImageProcessorError 500 "RekognitionCompatibilityError"
                       "Failed to convert image to Rekognition compatible format.") /\
    next_buffer (snd run) = next_buffer w)).
Proof.
  cbv zeta. split.
  - intros H. apply convertToRekognitionCompatible_passthrough.
    destruct H as [-> | ->]; reflexivity.
  - intros Hj Hp. pose proof (not_scan_compatible _ Hj Hp) as Hno. split.
    + intros bytes (metadata & Hm & Hover & Hpng).
      unfold ImageProcessor.convertToRekognitionCompatible. rewrite Hno.
      unfold ImageProcessor.convertToPNG, ImageProcessor.instantiateSharpImage,
        try_catch, bind, call.
      rewrite Hm. unfold over_limit in Hover.
      destruct (ImageProcessor.truthy (width metadata) &&
                ImageProcessor.truthy (height metadata));
        [simpl in Hover; rewrite Hover | ];
        cbn [ret log record sharp_input sharp_options];
        fold scan_png; unfold record in Hpng |- *; rewrite Hpng; reflexivity.
    + intros Hnever.
      destruct (ImageProcessor.convertToRekognitionCompatible env b ct w)
        as [o w'] eqn:Hrun.
      unfold ImageProcessor.convertToRekognitionCompatible in Hrun.
      rewrite Hno in Hrun.
      unfold ImageProcessor.convertToPNG, ImageProcessor.instantiateSharpImage,
        ImageProcessor.instantiateSharpImage_catch in Hrun.
      invert_run; try (split; reflexivity);
        exfalso;
        match goal with
        | Hpng : sharp_png env _ _ _ _ = inr ?bytes |- _ =>
            apply (Hnever bytes)
        end;
        match goal with
        | Hm : sharp_metadata env _ _ _ = inr ?metadata |- _ =>
            exists metadata; split; [exact Hm | split; [ | eassumption]]
        end;
        unfold over_limit;
        repeat match goal with
        | H : _ && _ = false |- _ => rewrite H
        | H : _ || _ = false |- _ => rewrite H
        end; try reflexivity; apply andb_false_r.
Qed.

(** A webp image the codec converts, and one it cannot read. *)
Lemma scan_compatible_conversion_witness :
  ImageProcessor.convertToRekognitionCompatible (calm []) sample
    "image/webp" loaded
    = (Returned {| ImageProcessor.buffer :=
                     {| buf_id := 1; buf_bytes := [Byte.x89] |};
                   ImageProcessor.format := "png";
                   ImageProcessor.converted := true |},
       {| trace := [EvSharpPng sample ImageProcessor.enhancedOptions scan_png;
                    EvSharpMetadata sample ImageProcessor.enhancedOptions];
          next_buffer := 2 |}) /\
  fst (ImageProcessor.convertToRekognitionCompatible
         (unreadable "Input buffer contains unsupported image format") sample
         "image/webp" loaded)
    = Threw (ImageProcessorError 500 "RekognitionCompatibilityError"
               "Failed to convert image to Rekognition compatible format.").
Proof.
  split.
  - apply (proj1 (proj2 (scan_compatible_conversion (calm []) sample
                           "image/webp" loaded)
                    ltac:(discriminate) ltac:(discriminate)) [Byte.x89]).
    exists some_metadata. repeat split.
  - apply (proj2 (proj2 (scan_compatible_conversion
                           (unreadable "Input buffer contains unsupported image format")
                           sample "image/webp" loaded)
                    ltac:(discriminate) ltac:(discriminate))).
    intros bytes (metadata & Hm & _). discriminate Hm.
Defined.
